(** * gaussdec: the decomposition-and-persistence pipeline

    A shallow embedding of [src/decompose/call_specfit.py]: the work
    enumerator [get_row_index], the fit task [do_fit], the table creation
    [create_tables] and the main loop [fit_spectra], with the properties of
    the specification stated and settled against them.

    Conventions of the embedding.
    - Python integers are [Z]; [%] with a positive modulus is [Z.modulo].
    - A floating-point value is the real number [R] it stands for.
      Storing a value in a Float32 column of the output table rounds it,
      by [f32]; the binary64 arithmetic in between is taken as exact, and
      infinities and NaN are outside the model. A division of Python
      floats by zero raises [ZeroDivisionError].
    - HDF5 files are values in a finite map from paths to files; a file
      has the two nodes the program touches, [root.survey] and
      [root.gaussdec]. The rows of the output table are in the file once
      the store is flushed or closed; until then they are in the buffer
      of the world, also those that PyTables may hand to the HDF5 library
      earlier on its own.
    - Exceptions are a sum type; a computation that raises keeps the
      changes it made to the world before raising.
    - [Pool.imap] hands the results back in the order of the tasks, and an
      exception of a task (or of the task generator) is raised again in
      the main process when its result is requested; the main loop is
      therefore a left-to-right traversal of the work units.
    - Progress messages ([print]) are not modelled. *)

From Stdlib Require Import ZArith List Reals Lia Lra.
From stdpp Require Import gmap strings list.

Local Open Scope Z_scope.

(** ** Data model *)

(** [class GaussDec(tables.IsDescription)]: one row of the output table. *)
Record GaussDec := mkGaussDec {
  hpxindex : Z;
  glon : R;
  glat : R;
  amplitude : R;
  peak : R;
  center_c : R;
  center_kms : R;
  sigma_c : R;
  sigma_kms : R
}.

(** One row of the source table [root.survey]. *)
Record SurveyRow := mkSurveyRow {
  HPXINDEX : Z;
  DATA : list R
}.

(** The output table [root.gaussdec]: its rows on disk, the columns with a
    completely sorted index, and the [autoindex] flag. *)
Record Table := mkTable {
  rows : list GaussDec;
  csindex : list string;
  autoindex : bool
}.

(** An HDF5 file with the nodes the program reads or creates. *)
Record h5file := mkFile {
  survey : option (list SurveyRow);
  gaussdec : option Table
}.

(** The [argparse.Namespace] that [main] gets from [parse_args]. *)
Record Namespace := mkNamespace {
  infile : string;
  config : string;
  nsamples : Z;
  hpxindices : option string;
  clobber : bool;
  outname : string
}.

Inductive exn :=
| IOError (msg : string)
| IndexError
| ValueError
| KeyError
| NoSuchNodeError
| ConfigError
| ZeroDivisionError.

Inductive res (A : Type) :=
| Ok (a : A)
| Raise (e : exn).
Arguments Ok {A} a.
Arguments Raise {A} e.

(** What the main process does to the outside, in order. *)
Inductive event :=
| EvPoolStart (source : string)
| EvFlush
| EvClose.

(** The world of the main process: the files on disk, the rows appended to
    the open output table and not yet flushed, and the trace. *)
Record world := mkWorld {
  fs : gmap string h5file;
  buf : list GaussDec;
  log : list event
}.

(** ** A state-and-exception monad over the world *)

Definition M (A : Type) : Type := world -> res A * world.

Definition ret {A} (a : A) : M A := fun w => (Ok a, w).

Definition raise {A} (e : exn) : M A := fun w => (Raise e, w).

Definition bind {A B} (m : M A) (k : A -> M B) : M B :=
  fun w => match m w with
           | (Ok a, w') => k a w'
           | (Raise e, w') => (Raise e, w')
           end.

Notation "'let*' x ':=' m 'in' k" := (bind m (fun x => k))
  (at level 10, x name, m at level 100, k at level 200).

Definition lift {A} (r : res A) : M A := fun w => (r, w).

Definition emit (e : event) : M unit :=
  fun w => (Ok tt, mkWorld (fs w) (buf w) (log w ++ [e])).

Definition put_file (path : string) (f : h5file) : M unit :=
  fun w => (Ok tt, mkWorld (<[path := f]> (fs w)) (buf w) (log w)).

(** [entry.append()]: the row goes to the buffer of the open table. *)
Definition append (entry : GaussDec) : M unit :=
  fun w => (Ok tt, mkWorld (fs w) (buf w ++ [entry]) (log w)).

(** Writing the buffered rows of the output table to the file. *)
Definition write_rows (pending : list GaussDec) (f : h5file) : h5file :=
  match gaussdec f with
  | Some t =>
      mkFile (survey f) (Some (mkTable (rows t ++ pending) (csindex t) (autoindex t)))
  | None => f
  end.

Definition flushed (path : string) (w : world) : gmap string h5file :=
  alter (write_rows (buf w)) path (fs w).

(** [gdec_store.flush()] *)
Definition flush (path : string) : M unit :=
  fun w => (Ok tt, mkWorld (flushed path w) [] (log w ++ [EvFlush])).

(** [gdec_store.close()]: flushes what is buffered and releases the file. *)
Definition close_store (path : string) (w : world) : world :=
  mkWorld (flushed path w) [] (log w ++ [EvClose]).

(** ** The program *)

(** *** External collaborators

    None of them is code of this repository; each is taken as it is
    called. *)
Class Collaborators := {
  (** The fit configuration handed to the fitter. *)
  fit_parameters : Type;
  (** [specfitting.default_p] *)
  default_p : fit_parameters;
  (** [specfitting.fit_spectrum(row, f_objective, f_jacobian, f_stats,
      parameters)["parameters"]]: the flattened parameter vector. *)
  fit_spectrum : SurveyRow -> fit_parameters -> list R;
  (** [healpy.pix2ang(nside, ipix)]: colatitude and longitude in radians. *)
  pix2ang : Z -> Z -> R * R;
  (** [myhelpers.datasets.hi4pi]: the channel-to-velocity calibration. *)
  channel2velo : R -> R;
  CDELT3 : R;
  (** [myhelpers.misc.parse_config]: [None] stands for a file it rejects. *)
  parse_config : string -> option (gmap string fit_parameters);
  (** [numpy.load] of an index file: [None] stands for a file it cannot
      read. *)
  np_load : string -> option (list Z);
  (** The permutation of [range(n)] drawn by the random generator. *)
  permutation : nat -> list nat;
  (** The value that a Float32 column holds for a float, which is what
      reading the field of the row gives back. *)
  f32 : R -> R
}.

Section Pipeline.

Context {C : Collaborators}.

(** [np.rad2deg] *)
Definition rad2deg (x : R) : R := (x * 180 / PI)%R.

(** *** create_tables *)

Definition isfile (path : string) : M bool :=
  fun w => (Ok (match fs w !! path with Some _ => true | None => false end), w).

(** The file that [open_file(outname, mode="w")], [create_table],
    [create_csindex] and [autoindex = True] leave behind. *)
Definition new_gaussdec_file : h5file :=
  mkFile None (Some (mkTable [] ["hpxindex"%string] true)).

Definition create_tables (arguments : Namespace) : M Z :=
  let* there := isfile (outname arguments) in
  if there && negb (clobber arguments)
  then raise (IOError "File already exists")
  else
    let* _ := put_file (outname arguments) new_gaussdec_file in
    ret 0.

(** *** do_fit *)

(** [slice(start, stop, 1).indices(n)]: a negative bound counts from the
    end, and both bounds are brought into [[0, n]]. *)
Definition slice_indices (start stop n : Z) : Z * Z :=
  let clip := fun x => if x <? 0 then Z.max (x + n) 0 else Z.min x n in
  (clip start, clip stop).

(** [table[key]] of a PyTables table: a key at or beyond [nrows] is an
    [IndexError]; a negative key has [nrows] added; the key then goes
    through [_process_range(key, key + 1, 1)], which is [slice.indices],
    and the first row of [read(start, stop, 1)] is returned, an
    [IndexError] when that range is empty. *)
Definition table_getitem (table : list SurveyRow) (key : Z) : res SurveyRow :=
  let nrows := Z.of_nat (length table) in
  if nrows <=? key then Raise IndexError
  else
    let key := if key <? 0 then key + nrows else key in
    let '(start, stop) := slice_indices key (key + 1) nrows in
    if start <? stop then
      match table !! Z.to_nat start with
      | Some row => Ok row
      | None => Raise IndexError
      end
    else Raise IndexError.

(** [table] is the worker's [store.root.survey]. *)
Definition do_fit (table : list SurveyRow) (row_index : Z)
    (parameters : option fit_parameters) : res (Z * list R) :=
  let parameters :=
    match parameters with None => default_p | Some p => p end in
  match table_getitem table row_index with
  | Ok row =>
      let fitresults := fit_spectrum row parameters in
      Ok (row_index, fitresults)
  | Raise e => Raise e
  end.

(** *** get_row_index *)

(** [range(n)] *)
Definition range (n : nat) : list Z := map Z.of_nat (seq 0 n).

(** [np.random.choice(range(n), size=size, replace=False)]: the head of
    a permutation of the population, and a [ValueError] when the sample
    is larger than the population. *)
Definition random_choice (n : nat) (size : Z) : res (list Z) :=
  if Z.of_nat n <? size then Raise ValueError
  else Ok (map Z.of_nat (take (Z.to_nat size) (permutation n))).

(** The generator, as the sequence it yields or the exception it raises
    before its first element. *)
Definition get_row_index (nsamples : Z) (hpxindices : option string)
    (table : list SurveyRow) : res (list Z) :=
  match hpxindices with
  | None =>
      if nsamples <? 0 then Ok (range (length table))
      else random_choice (length table) nsamples
  | Some path =>
      match np_load path with
      | Some indices => Ok indices
      | None => Raise (IOError "cannot load the index file")
      end
  end.

(** *** fit_spectra *)

(** The body of the loop over [range(len(fitresults) // 3)] up to the
    line that computes the peak: the entry for component [i], every field
    as the Float32 column holds it and the derived fields computed from
    the values read back, or the [ZeroDivisionError] of the division by a
    [sigma_c] that reads back as zero. *)
Definition entry_of (hpxindex : Z) (glon glat : R) (fitresults : list R)
    (i : nat) : res GaussDec :=
  let glon := f32 glon in
  let glat := f32 glat in
  let amplitude := f32 (nth (i * 3) fitresults 0%R) in
  let center_c := f32 (nth (i * 3 + 1) fitresults 0%R) in
  let center_kms := f32 (channel2velo center_c) in
  let sigma_c := f32 (nth (i * 3 + 2) fitresults 0%R) in
  let sigma_kms := f32 (sigma_c * CDELT3)%R in
  if Req_dec_T sigma_c 0 then Raise ZeroDivisionError
  else
    let peak := f32 (amplitude / 2 / PI / sigma_c)%R in
    Ok (mkGaussDec hpxindex glon glat amplitude peak
                   center_c center_kms sigma_c sigma_kms).

(** The loop over the components of one work unit: each entry is
    appended as soon as it is complete, so an exception leaves the
    entries before it in the table. *)
Fixpoint for_components (hpxindex : Z) (glon glat : R) (fitresults : list R)
    (components : list nat) : M unit :=
  match components with
  | [] => ret tt
  | i :: components =>
      let* entry := lift (entry_of hpxindex glon glat fitresults i) in
      let* _ := append entry in
      for_components hpxindex glon glat fitresults components
  end.

(** One turn of the [for] loop over [pool.imap]: the result of
    [do_fit_eff = partial(do_fit, parameters=...)] for the next work
    unit, and the body of the loop. *)
Definition handle_result (out : string) (table : list SurveyRow)
    (parameters : fit_parameters) (row_index : Z) : M unit :=
  let do_fit_eff := fun row_index => do_fit table row_index (Some parameters) in
  let* result := lift (do_fit_eff row_index) in
  let '(row_index, fitresults) := result in
  let hpxindex := row_index in
  let '(theta, glon) :=
    let '(theta, phi) := pix2ang 1024 hpxindex in (rad2deg theta, rad2deg phi) in
  let glat := (90 - theta)%R in
  let* _ := for_components hpxindex glon glat fitresults
                           (seq 0 (length fitresults / 3)) in
  if row_index mod 1000 =? 0 then flush out else ret tt.

Fixpoint for_results (out : string) (table : list SurveyRow)
    (parameters : fit_parameters) (work : list Z) : M unit :=
  match work with
  | [] => ret tt
  | row_index :: work =>
      let* _ := handle_result out table parameters row_index in
      for_results out table parameters work
  end.

(** [tables.open_file(path, mode="a")]: an absent file is created
    empty. *)
Definition open_append (path : string) : M unit :=
  fun w => match fs w !! path with
           | Some _ => (Ok tt, w)
           | None => (Ok tt, mkWorld (<[path := mkFile None None]> (fs w)) (buf w) (log w))
           end.

(** [tables.open_file(path).root.survey], while [out] is open for
    appending: PyTables refuses with a [ValueError] to open for reading a
    file that is open for writing. *)
Definition open_survey (out path : string) : M (list SurveyRow) :=
  fun w => if String.eqb path out then (Raise ValueError, w)
           else match fs w !! path with
                | None => (Raise (IOError "no such file"), w)
                | Some f => match survey f with
                            | Some t => (Ok t, w)
                            | None => (Raise NoSuchNodeError, w)
                            end
                end.

(** [gdec_store.root.gaussdec] *)
Definition open_gaussdec (path : string) : M unit :=
  fun w => match fs w !! path with
           | Some (mkFile _ (Some _)) => (Ok tt, w)
           | _ => (Raise NoSuchNodeError, w)
           end.

Definition fit_spectra_body (arguments : Namespace) : M Z :=
  let out := outname arguments in
  let* _ := emit (EvPoolStart (infile arguments)) in
  let* infile_table := open_survey out (infile arguments) in
  let* _ := open_gaussdec out in
  let* config := lift (match parse_config (config arguments) with
                       | Some c => Ok c
                       | None => Raise ConfigError
                       end) in
  let* parameters := lift (match config !! "fit_parameters"%string with
                           | Some p => Ok p
                           | None => Raise KeyError
                           end) in
  let* work := lift (get_row_index (nsamples arguments)
                                   (hpxindices arguments) infile_table) in
  let* _ := for_results out infile_table parameters work in
  let* _ := (fun w => (Ok tt, close_store out w)) in
  ret 0.

(** The [with tables.open_file(outname, mode="a") as gdec_store] block:
    when the body raises, leaving the block closes the store; when it
    ends, the store is closed already and leaving the block finds it
    so. *)
Definition fit_spectra (arguments : Namespace) : M Z :=
  let* _ := open_append (outname arguments) in
  fun w => match fit_spectra_body arguments w with
           | (Ok r, w') => (Ok r, w')
           | (Raise e, w') => (Raise e, close_store (outname arguments) w')
           end.

(** [main], after the arguments are parsed. *)
Definition main (arguments : Namespace) : M Z :=
  let* _ := create_tables arguments in
  fit_spectra arguments.

End Pipeline.

(** ** Views of the output table *)

(** The rows of [root.gaussdec] that are in the file. *)
Definition stored (out : string) (w : world) : list GaussDec :=
  match fs w !! out with
  | Some (mkFile _ (Some t)) => rows t
  | _ => []
  end.

(** The rows appended so far: those in the file, then the buffered ones. *)
Definition written (out : string) (w : world) : list GaussDec :=
  stored out w ++ buf w.

(** The output file is there and has its table. *)
Definition has_table (out : string) (w : world) : Prop :=
  exists f t, fs w !! out = Some f /\ gaussdec f = Some t.

(** The number of flushes in a trace. *)
Definition flushes (l : list event) : nat :=
  length (List.filter (fun e => match e with EvFlush => true | _ => false end) l).

(** The coordinates that the pixelization gives for a work unit. *)
Definition glon_of {C : Collaborators} (row_index : Z) : R :=
  rad2deg (snd (pix2ang 1024 row_index)).

Definition glat_of {C : Collaborators} (row_index : Z) : R :=
  (90 - rad2deg (fst (pix2ang 1024 row_index)))%R.

(** The value that the table holds for [sigma_c] of component [i]. *)
Definition stored_sigma {C : Collaborators} (fitresults : list R) (i : nat) : R :=
  f32 (nth (i * 3 + 2) fitresults 0%R).

(** The entry of component [i] when its [sigma_c] does not read back as
    zero. *)
Definition record_of {C : Collaborators} (row_index : Z) (fitresults : list R)
    (i : nat) : GaussDec :=
  let amplitude := f32 (nth (i * 3) fitresults 0%R) in
  let center_c := f32 (nth (i * 3 + 1) fitresults 0%R) in
  let sigma_c := stored_sigma fitresults i in
  mkGaussDec row_index (f32 (glon_of row_index)) (f32 (glat_of row_index))
             amplitude (f32 (amplitude / 2 / PI / sigma_c)%R)
             center_c (f32 (channel2velo center_c))
             sigma_c (f32 (sigma_c * CDELT3)%R).

(** What the loop over the components appends, and what it ends with. *)
Fixpoint components_outcome {C : Collaborators} (hpxindex : Z) (glon glat : R)
    (fitresults : list R) (components : list nat) : list GaussDec * res unit :=
  match components with
  | [] => ([], Ok tt)
  | i :: components =>
      match entry_of hpxindex glon glat fitresults i with
      | Raise e => ([], Raise e)
      | Ok entry =>
          let '(es, r) := components_outcome hpxindex glon glat fitresults components in
          (entry :: es, r)
      end
  end.

(** The entries that the normalizer appends for one raw fit result, and
    what it ends with. *)
Definition entries {C : Collaborators} (row_index : Z) (fitresults : list R)
    : list GaussDec * res unit :=
  components_outcome row_index
    (rad2deg (snd (pix2ang 1024 row_index)))
    (90 - rad2deg (fst (pix2ang 1024 row_index)))%R
    fitresults (seq 0 (length fitresults / 3)).

(** No [sigma_c] of a whole triplet reads back as zero. *)
Definition nonzero_sigmas {C : Collaborators} (fitresults : list R) : Prop :=
  forall i, (i < length fitresults / 3)%nat -> stored_sigma fitresults i <> 0%R.

(** Component [k] is the first whose [sigma_c] reads back as zero. *)
Definition first_zero_sigma {C : Collaborators} (fitresults : list R) (k : nat) : Prop :=
  (k < length fitresults / 3)%nat /\
  stored_sigma fitresults k = 0%R /\
  forall i, (i < k)%nat -> stored_sigma fitresults i <> 0%R.

(** One work unit: the entries appended for it and what its turn of the
    loop ends with, an exception of the fit task or of the normalizer. *)
Definition unit_outcome {C : Collaborators} (table : list SurveyRow)
    (parameters : fit_parameters) (row_index : Z) : list GaussDec * res unit :=
  match do_fit table row_index (Some parameters) with
  | Ok (row_index, fitresults) => entries row_index fitresults
  | Raise e => ([], Raise e)
  end.

(** The entries appended for one work unit. *)
Definition batch {C : Collaborators} (table : list SurveyRow)
    (parameters : fit_parameters) (row_index : Z) : list GaussDec :=
  fst (unit_outcome table parameters row_index).

(** The turn of the loop for the work unit ends without an exception. *)
Definition completes {C : Collaborators} (table : list SurveyRow)
    (parameters : fit_parameters) (row_index : Z) : Prop :=
  snd (unit_outcome table parameters row_index) = Ok tt.

(** The work units that the main loop gets to: those before the first
    one whose turn raises, and that one. *)
Fixpoint attempted {C : Collaborators} (table : list SurveyRow)
    (parameters : fit_parameters) (work : list Z) : list Z :=
  match work with
  | [] => []
  | row_index :: work =>
      row_index ::
      match snd (unit_outcome table parameters row_index) with
      | Ok _ => attempted table parameters work
      | Raise _ => []
      end
  end.

(** The work units whose turn of the loop ends without an exception,
    before the first one whose turn raises. *)
Fixpoint completed {C : Collaborators} (table : list SurveyRow)
    (parameters : fit_parameters) (work : list Z) : list Z :=
  match work with
  | [] => []
  | row_index :: work =>
      match snd (unit_outcome table parameters row_index) with
      | Ok _ => row_index :: completed table parameters work
      | Raise _ => []
      end
  end.

(** What the loop over the results ends with: the exception of the first
    turn that raises, if there is one. *)
Fixpoint loop_result {C : Collaborators} (table : list SurveyRow)
    (parameters : fit_parameters) (work : list Z) : res unit :=
  match work with
  | [] => Ok tt
  | row_index :: work =>
      match snd (unit_outcome table parameters row_index) with
      | Ok _ => loop_result table parameters work
      | Raise e => Raise e
      end
  end.

(** The world [w'] is [w] with the entries [es] appended to the table of
    [out], and every other file as it was. *)
Definition extends (out : string) (w w' : world) (es : list GaussDec) : Prop :=
  written out w' = written out w ++ es /\
  has_table out w' /\
  forall path, path <> out -> fs w' !! path = fs w !! path.

(** The keys at which a table returns a row counted from its start or
    from its end. *)
Definition in_range (table : list SurveyRow) (key : Z) : Prop :=
  - Z.of_nat (length table) <= key < Z.of_nat (length table).

(** The keys at which [table[key]] is an [IndexError]. *)
Definition out_of_range (table : list SurveyRow) (key : Z) : Prop :=
  Z.of_nat (length table) <= key \/
  key = - Z.of_nat (length table) - 1 \/
  key < - 2 * Z.of_nat (length table).

(** The source file is there and has the table [table]. *)
Definition has_survey (path : string) (w : world) (table : list SurveyRow) : Prop :=
  exists f, fs w !! path = Some f /\ survey f = Some table.

(** The world after the pool is started. *)
Definition pool_started (arguments : Namespace) (w : world) : world :=
  mkWorld (fs w) (buf w) (log w ++ [EvPoolStart (infile arguments)]).

(** The identifiers at which the main loop flushes. *)
Definition flush_points (work : list Z) : list Z :=
  List.filter (fun row_index => row_index mod 1000 =? 0) work.

(** The three values of the raw fit result that an entry holds. *)
Definition triplet_of (e : GaussDec) : list R :=
  [amplitude e; center_c e; sigma_c e].

(** The work units whose entries are still in the buffer after the loop
    has gone through [work], when those of [acc] were in it before. *)
Fixpoint unflushed (acc work : list Z) : list Z :=
  match work with
  | [] => acc
  | row_index :: work =>
      if row_index mod 1000 =? 0 then unflushed [] work
      else unflushed (acc ++ [row_index]) work
  end.

(** The index of the output table: the indexed columns and the
    [autoindex] flag, when the table is there. *)
Definition index_of (out : string) (w : world) : option (list string * bool) :=
  match fs w !! out with
  | Some (mkFile _ (Some t)) => Some (csindex t, autoindex t)
  | _ => None
  end.

(** ** The end-to-end example of the specification *)

(** The channel-to-velocity conversion of [inspect_gaussdec.py], which
    serves as the calibration of the example. *)
Module inspect_gaussdec.

Definition CRPIX3 : R := 471.921630003202%R.
Definition CDELT3 : R := 1288.23448620083%R.

Definition chan2velo (channel : R) : R := ((channel - CRPIX3) * CDELT3)%R.

(** [healpy.nside2npix(nside)]: twelve times the square of [nside]. *)
Definition nside2npix (nside : Z) : Z := 12 * nside * nside.

(** The position that the index [k] has in a numpy array of length [n]:
    a negative index counts from the end, one outside [-n, n) is an
    [IndexError]. *)
Definition array_index (n : nat) (k : Z) : res nat :=
  if (k <? - Z.of_nat n) || (Z.of_nat n <=? k) then Raise IndexError
  else Ok (Z.to_nat (if k <? 0 then k + Z.of_nat n else k)).

(** [arr[k] = f(arr[k])], in place. *)
Definition array_update {A : Type} (f : A -> A) (arr : list A) (k : Z)
    : res (list A) :=
  match array_index (length arr) k with
  | Ok i => Ok (alter f i arr)
  | Raise e => Raise e
  end.

(** The loop [for row in table: arr[row['hpxindex']] = f(row, arr[...])]. *)
Fixpoint for_rows {A : Type} (f : GaussDec -> A -> A) (table : list GaussDec)
    (arr : list A) : res (list A) :=
  match table with
  | [] => Ok arr
  | row :: table =>
      match array_update (f row) arr (hpxindex row) with
      | Ok arr => for_rows f table arr
      | Raise e => Raise e
      end
  end.

Definition reconstruct_coldens (table : list GaussDec) : res (list R) :=
  let npix := Z.to_nat (nside2npix (2 ^ 10)) in
  let hi_model := replicate npix 0%R in
  match for_rows (fun row x => (x + amplitude row)%R) table hi_model with
  | Ok hi_model =>
      let to_coldens := (1.82e18 * 1.288)%R in
      Ok (map (fun x => (x * to_coldens)%R) hi_model)
  | Raise e => Raise e
  end.

Definition make_ncomp_map (table : list GaussDec) : res (list nat) :=
  let npix := Z.to_nat (nside2npix (2 ^ 10)) in
  let ncomps := replicate npix 0%nat in
  for_rows (fun _ n => (n + 1)%nat) table ncomps.

End inspect_gaussdec.

Module Example.

(** The source table: three rows with pixel identifiers 10, 20, 30. *)
Definition table : list SurveyRow :=
  [mkSurveyRow 10 []; mkSurveyRow 20 []; mkSurveyRow 30 []].

(** The stub fitter: one component for the first row, none for the
    second, two for the third; for a pixel 40, which the table does not
    have, a vector with two values after its last whole triplet; for the
    pixels 50, 60 and 70, which it does not have either, vectors with a
    component of zero width. *)
Definition stub_fit (row : SurveyRow) (_ : unit) : list R :=
  if HPXINDEX row =? 10 then [5; 100; 2]%R
  else if HPXINDEX row =? 30 then [3; 50; 1; 4; 150; 1.5]%R
  else if HPXINDEX row =? 40 then [6; 60; 3; 7; 70]%R
  else if HPXINDEX row =? 50 then [5; 100; 2; 1; 50; 0]%R
  else if HPXINDEX row =? 60 then [5; 100; 0]%R
  else if HPXINDEX row =? 70 then [6; 60; 0; 7; 70]%R
  else [].

(** The index files on disk. *)
Definition index_files (path : string) : option (list Z) :=
  if String.eqb path "bad.npy" then Some [0; 7; 2]
  else if String.eqb path "first.npy" then Some [0; 0; 0]
  else None.

Definition stub : Collaborators := {|
  fit_parameters := unit;
  default_p := tt;
  fit_spectrum := stub_fit;
  pix2ang := fun _ _ => (0%R, 0%R);
  channel2velo := inspect_gaussdec.chan2velo;
  CDELT3 := inspect_gaussdec.CDELT3;
  parse_config := fun path =>
    if String.eqb path "fit.cfg"
    then Some {[ "fit_parameters"%string := tt ]}
    else None;
  np_load := index_files;
  permutation := fun n => seq 0 n;
  f32 := fun x => x
|}.

(** The disk before the run: the source file only. *)
Definition disk : world :=
  mkWorld {[ "survey.h5"%string := mkFile (Some table) None ]} [] [].

Definition args (n : Z) (x : option string) (cfg : string) : Namespace :=
  mkNamespace "survey.h5" cfg n x false "gdec.h5".

(** The default command line: a full scan. *)
Definition full_scan : Namespace := args (-1) None "fit.cfg".

(** The disk once [create_tables] has run. *)
Definition ready : world :=
  snd (create_tables full_scan disk).

(** A longer table, with a row for pixel 40 at its end. *)
Definition longer_table : list SurveyRow := table ++ [mkSurveyRow 40 []].

(** A table of 1003 rows, and a work list of 1001 of its row indices
    none of which is a multiple of 1000. *)
Definition big_table : list SurveyRow := replicate 1003 (mkSurveyRow 10 []).
Definition sparse_work : list Z := map Z.of_nat (seq 1 999) ++ [1001; 1002].

(** The configuration that [parse_config] returns for [fit.cfg]. *)
Definition fit_cfg : gmap string unit := {[ "fit_parameters"%string := tt ]}.

(** A source table whose second row gets a fit with a second component of
    zero width, and the disk that holds it. *)
Definition degenerate_table : list SurveyRow :=
  [mkSurveyRow 10 []; mkSurveyRow 50 []; mkSurveyRow 30 []].

Definition degenerate_disk : world :=
  mkWorld {[ "survey.h5"%string := mkFile (Some degenerate_table) None ]} [] [].

(** That disk once [create_tables] has run. *)
Definition degenerate_ready : world :=
  snd (create_tables full_scan degenerate_disk).

(** A source table whose only row gets a fit of five values, the third
    of them, a width, zero. *)
Definition odd_table : list SurveyRow := [mkSurveyRow 70 []].

End Example.

(** ** The earlier script, [call_specfit.py]

    It fits the FITS files of a directory one by one and writes for each
    a compressed JSON file with the fits of its rows, keyed by pixel. The
    files it writes are values in a finite map from their names to the
    dictionary they hold. *)

Module call_specfit.

(** The values a parameter dictionary holds. *)
Inductive pyvalue :=
| PyBool (b : bool)
| PyInt (z : Z)
| PyFloat (x : R)
| PyStr (s : string)
| PyNone.

(** [v == False] *)
Definition eq_False (v : pyvalue) : bool :=
  match v with
  | PyBool b => negb b
  | PyInt z => z =? 0
  | PyFloat x => if Req_dec_T x 0 then true else false
  | PyStr _ => false
  | PyNone => false
  end.

(** What the script calls and does not define. *)
Class Collaborators := {
  (** What the fitter returns for a spectrum. *)
  fit : Type;
  (** [specfitting.fit_spectrum(data, f_objective, f_jacobian, f_stats, p)] *)
  fit_spectrum : list R -> gmap string pyvalue -> fit;
  (** [specfitting.default_p] *)
  default_p : gmap string pyvalue;
  (** [astropy.io.fits.getdata(filename, ext=1)]: [None] stands for a
      file it cannot read. *)
  getdata : string -> option (list SurveyRow);
  (** [healpy.pix2ang(nside, ipix)] *)
  pix2ang : Z -> Z -> R * R;
  (** What [glob.glob] finds for the pattern of the script. *)
  glob : list string
}.

(** The character [/], code 47. *)
Definition slash : Ascii.ascii :=
  Ascii.Ascii true true true true false true false false.

Fixpoint has_slash (s : string) : bool :=
  match s with
  | EmptyString => false
  | String c rest => Ascii.eqb c slash || has_slash rest
  end.

(** [os.path.basename]: what follows the last slash. *)
Fixpoint basename (s : string) : string :=
  match s with
  | EmptyString => EmptyString
  | String c rest =>
      if Ascii.eqb c slash || has_slash rest then basename rest else s
  end.

Section Script.

Context {S : Collaborators}.

(** The test on the latitude in [fit_spectra]: the pixel is more than 15
    degrees off the Galactic plane. *)
Definition off_plane (hpx : Z) : bool :=
  let '(theta, glon) :=
    let '(theta, phi) := pix2ang 1024 hpx in (rad2deg theta, rad2deg phi) in
  let glat := (90 - theta)%R in
  if Rlt_dec 15 (Rabs glat) then true else false.

(** The generator [fit_spectra] inside [fit_file], as the pairs it
    yields. *)
Fixpoint fit_spectra (hpxfile : list SurveyRow) (p : gmap string pyvalue)
    : list (Z * fit) :=
  match hpxfile with
  | [] => []
  | row :: hpxfile =>
      if off_plane (HPXINDEX row)
      then (HPXINDEX row, fit_spectrum (DATA row) p) :: fit_spectra hpxfile p
      else fit_spectra hpxfile p
  end.

(** [{int(k) : v for k, v in pairs}]: a later pair replaces an earlier
    one with the same key. *)
Definition dict_of (pairs : list (Z * fit)) : gmap Z fit :=
  foldl (fun d kv => <[fst kv := snd kv]> d) ∅ pairs.

Definition outname_of (filename : string) : string :=
  (basename filename ++ "_fits.gzjs")%string.

(** [(os.path.exists(outname)) and (p['clobber'] == False)]: the second
    operand is evaluated only when the first holds. *)
Definition skip_test (files : gmap string (gmap Z fit)) (outname : string)
    (p : gmap string pyvalue) : res bool :=
  match files !! outname with
  | None => Ok false
  | Some _ =>
      match p !! "clobber"%string with
      | Some v => Ok (eq_False v)
      | None => Raise KeyError
      end
  end.

Definition fit_file (args : string * gmap string pyvalue)
    (files : gmap string (gmap Z fit)) : res unit * gmap string (gmap Z fit) :=
  let '(filename, p) := args in
  let outname := outname_of filename in
  match skip_test files outname p with
  | Raise e => (Raise e, files)
  | Ok true => (Ok tt, files)
  | Ok false =>
      match getdata filename with
      | None => (Raise (IOError "cannot read the FITS file"), files)
      | Some hpxfile =>
          let results := dict_of (fit_spectra hpxfile p) in
          (Ok tt, <[outname := results]> files)
      end
  end.

(** The generator [gen_file_fit]: every file with the default parameters,
    in which [clobber] has been set to [False]. *)
Definition gen_file_fit : list (string * gmap string pyvalue) :=
  let filenames := glob in
  let p := <["clobber"%string := PyBool false]> default_p in
  map (fun f => (f, p)) filenames.

End Script.

End call_specfit.

(** ** An example for the earlier script and the inspection helpers *)

Module ScriptExample.

(** A FITS file of three rows, two of them for the pixel 10. *)
Definition rows : list SurveyRow :=
  [mkSurveyRow 10 [1%R]; mkSurveyRow 20 []; mkSurveyRow 10 [2%R]].

(** A stub fitter that hands the samples back. *)
Definition stub : call_specfit.Collaborators := {|
  call_specfit.fit := list R;
  call_specfit.fit_spectrum := fun data _ => data;
  call_specfit.default_p := {[ "maxiter"%string := call_specfit.PyInt 100 ]};
  call_specfit.getdata := fun filename =>
    if String.eqb filename "data/x.fits" then Some rows else None;
  call_specfit.pix2ang := fun _ _ => (0%R, 0%R);
  call_specfit.glob := ["data/x.fits"%string]
|}.

(** The one task of the script in this example. *)
Definition task : string * gmap string call_specfit.pyvalue :=
  ("data/x.fits"%string,
   <[ "clobber"%string := call_specfit.PyBool false ]>
     {[ "maxiter"%string := call_specfit.PyInt 100 ]}).

(** A table of components: two for the pixel 5, one with the identifier
    -1. *)
Definition components : list GaussDec :=
  [mkGaussDec 5 0 0 1 0 0 0 0 0; mkGaussDec (-1) 0 0 2 0 0 0 0 0;
   mkGaussDec 5 0 0 3 0 0 0 0 0].

(** A command line whose output path is the source path, with clobber. *)
Definition onto_source : Namespace :=
  mkNamespace "survey.h5" "fit.cfg" (-1) None true "survey.h5".

End ScriptExample.

(** ** Proof steps for the examples *)

(** The tables and the files of the examples. *)
Ltac example_table :=
  exists new_gaussdec_file, (mkTable [] ["hpxindex"%string] true); split; reflexivity.

Ltac example_survey t :=
  exists (mkFile (Some t) None); split; reflexivity.

(** The widths of a fit of the stub fitter, one by one. *)
Ltac each_sigma :=
  let j := fresh "j" in
  let Hj := fresh "Hj" in
  intros j Hj; vm_compute in Hj;
  repeat (destruct j as [|j]; [unfold stored_sigma; cbn; lra|]);
  exfalso; lia.

(** ** Properties *)

Section Properties.

Context {C : Collaborators}.

(** *** The result normalizer *)

Lemma entry_of_nonzero (row_index : Z) (fitresults : list R) (i : nat) :
  stored_sigma fitresults i <> 0%R ->
  entry_of row_index (rad2deg (snd (pix2ang 1024 row_index)))
           (90 - rad2deg (fst (pix2ang 1024 row_index)))%R fitresults i
  = Ok (record_of row_index fitresults i).
Proof.
  intros Hs. unfold entry_of, record_of, stored_sigma in *.
  by destruct (Req_dec_T (f32 (nth (i * 3 + 2) fitresults 0%R)) 0).
Qed.

Lemma entry_of_zero (row_index : Z) (glon glat : R) (fitresults : list R) (i : nat) :
  stored_sigma fitresults i = 0%R ->
  entry_of row_index glon glat fitresults i = Raise ZeroDivisionError.
Proof.
  intros Hs. unfold entry_of, stored_sigma in *.
  by destruct (Req_dec_T (f32 (nth (i * 3 + 2) fitresults 0%R)) 0).
Qed.

(** The only exception of the normalizer is the division by zero. *)
Lemma entry_of_cases (row_index : Z) (fitresults : list R) (i : nat) :
  let entry := entry_of row_index (rad2deg (snd (pix2ang 1024 row_index)))
                 (90 - rad2deg (fst (pix2ang 1024 row_index)))%R fitresults i in
  (stored_sigma fitresults i <> 0%R /\ entry = Ok (record_of row_index fitresults i)) \/
  (stored_sigma fitresults i = 0%R /\ entry = Raise ZeroDivisionError).
Proof.
  destruct (Req_dec_T (stored_sigma fitresults i) 0) as [Hz|Hnz].
  - right. split; [done|]. by apply entry_of_zero.
  - left. split; [done|]. by apply entry_of_nonzero.
Qed.

(** The loop over the components [start, start + len) when none of them
    has a zero width: every entry is appended. *)
Lemma components_whole (row_index : Z) (fitresults : list R) (start len : nat) :
  (forall i, (start <= i < start + len)%nat -> stored_sigma fitresults i <> 0%R) ->
  components_outcome row_index (rad2deg (snd (pix2ang 1024 row_index)))
    (90 - rad2deg (fst (pix2ang 1024 row_index)))%R fitresults (seq start len)
  = (map (record_of row_index fitresults) (seq start len), Ok tt).
Proof.
  revert start. induction len as [|len IH]; intros start Hnz; [done|].
  cbn [seq components_outcome map].
  rewrite entry_of_nonzero by (apply Hnz; lia).
  rewrite IH; [done|]. intros i Hi. apply Hnz. lia.
Qed.

(** The loop over the components when component [k] is the first with a
    zero width: the entries before it are appended, and the loop ends
    with the exception. *)
Lemma components_partial (row_index : Z) (fitresults : list R) (start len k : nat) :
  (start <= k < start + len)%nat ->
  stored_sigma fitresults k = 0%R ->
  (forall i, (start <= i < k)%nat -> stored_sigma fitresults i <> 0%R) ->
  components_outcome row_index (rad2deg (snd (pix2ang 1024 row_index)))
    (90 - rad2deg (fst (pix2ang 1024 row_index)))%R fitresults (seq start len)
  = (map (record_of row_index fitresults) (seq start (k - start)),
     Raise ZeroDivisionError).
Proof.
  revert start. induction len as [|len IH]; intros start Hk Hz Hnz; [lia|].
  cbn [seq components_outcome].
  destruct (decide (start = k)) as [->|Hne].
  - rewrite entry_of_zero by done. by rewrite Nat.sub_diag.
  - rewrite entry_of_nonzero by (apply Hnz; lia).
    rewrite IH; [|lia|done|intros i Hi; apply Hnz; lia].
    replace (k - start)%nat with (S (k - S start)) by lia. reflexivity.
Qed.

Lemma entries_whole (row_index : Z) (fitresults : list R) :
  nonzero_sigmas fitresults ->
  entries row_index fitresults
  = (map (record_of row_index fitresults) (seq 0 (length fitresults / 3)), Ok tt).
Proof.
  intros Hnz. unfold entries. apply components_whole.
  intros i Hi. apply Hnz. lia.
Qed.

Lemma entries_partial (row_index : Z) (fitresults : list R) (k : nat) :
  first_zero_sigma fitresults k ->
  entries row_index fitresults
  = (map (record_of row_index fitresults) (seq 0 k), Raise ZeroDivisionError).
Proof.
  intros (Hk & Hz & Hnz). unfold entries.
  rewrite (components_partial _ _ 0 _ k); [|lia|done|intros i Hi; apply Hnz; lia].
  by rewrite Nat.sub_0_r.
Qed.

Lemma entries_nil (row_index : Z) : entries row_index [] = ([], Ok tt).
Proof. reflexivity. Qed.

(** A raw fit result has a first component of zero width, or none. *)
Lemma sigmas_cases (fitresults : list R) :
  nonzero_sigmas fitresults \/ exists k, first_zero_sigma fitresults k.
Proof.
  unfold nonzero_sigmas, first_zero_sigma.
  induction (length fitresults / 3)%nat as [|n IH].
  - left. intros i Hi. lia.
  - destruct IH as [Hnz|(k & Hk & Hz & Hbefore)].
    + destruct (Req_dec_T (stored_sigma fitresults n) 0) as [Hz|Hn].
      * right. exists n. split; [lia|]. split; [done|]. intros i Hi. apply Hnz. lia.
      * left. intros i Hi. destruct (decide (i = n)) as [->|]; [done|]. apply Hnz. lia.
    + right. exists k. split; [lia|]. by split.
Qed.

(** Every entry of a work unit is the record of one of its components. *)
Lemma entries_Forall (P : GaussDec -> Prop) (row_index : Z) (fitresults : list R) :
  (forall i, (i < length fitresults / 3)%nat -> stored_sigma fitresults i <> 0%R ->
     P (record_of row_index fitresults i)) ->
  Forall P (fst (entries row_index fitresults)).
Proof.
  intros HP. destruct (sigmas_cases fitresults) as [Hnz|(k & Hk & Hz & Hbefore)].
  - rewrite entries_whole by done. cbn [fst]. apply Forall_map, Forall_forall.
    intros i Hi%elem_of_seq. apply HP; [lia|]. apply Hnz. lia.
  - rewrite (entries_partial _ _ k) by done. cbn [fst]. apply Forall_map, Forall_forall.
    intros i Hi%elem_of_seq. apply HP; [lia|]. apply Hbefore. lia.
Qed.

Lemma length_entries_whole (row_index : Z) (fitresults : list R) :
  snd (entries row_index fitresults) = Ok tt ->
  nonzero_sigmas fitresults /\
  length (fst (entries row_index fitresults)) = (length fitresults / 3)%nat.
Proof.
  intros Hok. destruct (sigmas_cases fitresults) as [Hnz|(k & Hk)].
  - split; [done|]. rewrite entries_whole by done. cbn [fst].
    by rewrite length_map, length_seq.
  - rewrite (entries_partial _ _ k) in Hok by done. done.
Qed.

(** The values after the last whole triplet are never read. *)
Lemma entries_app (row_index : Z) (triplets tail : list R) (N : nat) :
  length triplets = (3 * N)%nat -> (length tail < 3)%nat ->
  entries row_index (triplets ++ tail) = entries row_index triplets.
Proof.
  intros Hlen Htail. unfold entries.
  assert (Hq : (length (triplets ++ tail) / 3 = N)%nat).
  { rewrite length_app, Hlen. symmetry. apply (Nat.div_unique _ 3 N (length tail)); lia. }
  assert (Hq' : (length triplets / 3 = N)%nat).
  { rewrite Hlen. symmetry. apply (Nat.div_unique _ 3 N 0); lia. }
  rewrite Hq, Hq'.
  assert (Hgen : forall start len, (start + len <= N)%nat ->
    components_outcome row_index (rad2deg (snd (pix2ang 1024 row_index)))
      (90 - rad2deg (fst (pix2ang 1024 row_index)))%R (triplets ++ tail) (seq start len)
    = components_outcome row_index (rad2deg (snd (pix2ang 1024 row_index)))
        (90 - rad2deg (fst (pix2ang 1024 row_index)))%R triplets (seq start len)).
  { intros start len. revert start. induction len as [|len IH]; intros start Hle; [done|].
    cbn [seq components_outcome]. rewrite IH by lia.
    unfold entry_of. rewrite !app_nth1 by lia. reflexivity. }
  apply Hgen. lia.
Qed.

(** *** The monad and the output table *)

(** The loop over the components appends what [components_outcome] lists
    and ends as it says. *)
Lemma for_components_eq (hpxindex : Z) (glon glat : R) (fitresults : list R)
    (components : list nat) (w : world) :
  for_components hpxindex glon glat fitresults components w =
  let outcome := components_outcome hpxindex glon glat fitresults components in
  (snd outcome, mkWorld (fs w) (buf w ++ fst outcome) (log w)).
Proof.
  revert w. induction components as [|i components IH]; intros [f b l].
  - simpl. unfold ret. by rewrite app_nil_r.
  - cbn [for_components components_outcome]. unfold bind, lift.
    destruct (entry_of hpxindex glon glat fitresults i) as [entry|e].
    + unfold append. cbn [fs buf log]. rewrite IH. cbn [fs buf log].
      destruct (components_outcome hpxindex glon glat fitresults components) as [es r].
      simpl. by rewrite <- app_assoc.
    + simpl. by rewrite app_nil_r.
Qed.

(** One turn of the loop over the results. *)
Lemma handle_result_eq (out : string) (table : list SurveyRow)
    (p : fit_parameters) (row_index : Z) (w : world) :
  handle_result out table p row_index w =
  let w1 := mkWorld (fs w) (buf w ++ batch table p row_index) (log w) in
  match snd (unit_outcome table p row_index) with
  | Raise e => (Raise e, w1)
  | Ok _ => if row_index mod 1000 =? 0 then flush out w1 else (Ok tt, w1)
  end.
Proof.
  unfold handle_result, batch, unit_outcome, bind, lift, do_fit.
  destruct (table_getitem table row_index) as [row|e].
  - cbv zeta. unfold entries.
    destruct (pix2ang 1024 row_index) as [theta phi]. cbn [fst snd].
    rewrite for_components_eq. cbv zeta.
    destruct (components_outcome row_index (rad2deg phi) (90 - rad2deg theta)%R
                (fit_spectrum row p) (seq 0 (length (fit_spectrum row p) / 3)))
      as [es [[]|e]]; cbn [fst snd]; [|done].
    by destruct (row_index mod 1000 =? 0).
  - destruct w as [f b l]. simpl. by rewrite app_nil_r.
Qed.

Lemma write_rows_nil (f : h5file) : write_rows [] f = f.
Proof.
  unfold write_rows. destruct f as [s [[r c a]|]]; simpl; [|done].
  by rewrite app_nil_r.
Qed.

Lemma flushed_nil (out : string) (w : world) : buf w = [] -> flushed out w = fs w.
Proof.
  intros Hb. unfold flushed. rewrite Hb. apply map_eq. intros k.
  rewrite lookup_alter. case_decide; [subst|done].
  destruct (fs w !! _); simpl; [|done]. by rewrite write_rows_nil.
Qed.

Lemma flushed_other (out path : string) (w : world) :
  path <> out -> flushed out w !! path = fs w !! path.
Proof. intros Hne. unfold flushed. by rewrite lookup_alter_ne. Qed.

Lemma stored_flushed (out : string) (w : world) (w' : world) :
  has_table out w -> fs w' = flushed out w -> stored out w' = written out w.
Proof.
  intros (f & t & Hf & Ht) Hfs. unfold written, stored. rewrite Hfs.
  unfold flushed. rewrite lookup_alter_eq, Hf. simpl.
  unfold write_rows. rewrite Ht. destruct f as [sv g]. simpl in *. by subst.
Qed.

Lemma has_table_flushed (out : string) (w w' : world) :
  has_table out w -> fs w' = flushed out w -> has_table out w'.
Proof.
  intros (f & t & Hf & Ht) Hfs. unfold has_table. rewrite Hfs.
  unfold flushed. rewrite lookup_alter_eq, Hf. simpl.
  unfold write_rows. rewrite Ht. eauto.
Qed.

Lemma has_table_fs (out : string) (w w' : world) :
  has_table out w -> fs w' = fs w -> has_table out w'.
Proof. intros (f & t & Hf & Ht) Hfs. exists f, t. by rewrite Hfs. Qed.

Lemma written_flush (out : string) (w : world) :
  has_table out w -> written out (snd (flush out w)) = written out w.
Proof.
  intros Ht. unfold written at 1. simpl. rewrite app_nil_r.
  by apply stored_flushed.
Qed.

Lemma written_close (out : string) (w : world) :
  has_table out w -> stored out (close_store out w) = written out w.
Proof. intros Ht. by apply stored_flushed. Qed.

Lemma extends_refl (out : string) (w : world) :
  has_table out w -> extends out w w [].
Proof. intros Ht. unfold extends. by rewrite app_nil_r. Qed.

Lemma extends_trans (out : string) (w1 w2 w3 : world) (es1 es2 : list GaussDec) :
  extends out w1 w2 es1 -> extends out w2 w3 es2 -> extends out w1 w3 (es1 ++ es2).
Proof.
  intros (Hw1 & _ & Ho1) (Hw2 & Ht2 & Ho2). repeat split; [|done|].
  - by rewrite Hw2, Hw1, app_assoc.
  - intros path Hne. by rewrite Ho2, Ho1.
Qed.

(** *** The fit task *)

Lemma table_getitem_position (table : list SurveyRow) (i : nat) (row : SurveyRow) :
  table !! i = Some row -> table_getitem table (Z.of_nat i) = Ok row.
Proof.
  intros Hrow. pose proof (lookup_lt_Some _ _ _ Hrow). unfold table_getitem, slice_indices.
  destruct (Z.leb_spec (Z.of_nat (length table)) (Z.of_nat i)); [lia|].
  destruct (Z.ltb_spec (Z.of_nat i) 0); [lia|].
  destruct (Z.ltb_spec (Z.of_nat i) 0); [lia|].
  destruct (Z.ltb_spec (Z.of_nat i + 1) 0); [lia|].
  rewrite !Z.min_l by lia.
  destruct (Z.ltb_spec (Z.of_nat i) (Z.of_nat i + 1)); [|lia].
  by rewrite Nat2Z.id, Hrow.
Qed.

(** A key counted from the start or from the end finds its row. *)
Lemma table_getitem_in_range (table : list SurveyRow) (key : Z) :
  in_range table key -> exists row, table_getitem table key = Ok row.
Proof.
  unfold in_range. intros Hr. unfold table_getitem, slice_indices.
  destruct (Z.leb_spec (Z.of_nat (length table)) key); [lia|].
  destruct (Z.ltb_spec key 0).
  - destruct (lookup_lt_is_Some_2 table (Z.to_nat (key + Z.of_nat (length table))))
      as [row Hrow]; [lia|].
    exists row.
    destruct (Z.ltb_spec (key + Z.of_nat (length table)) 0); [lia|].
    destruct (Z.ltb_spec (key + Z.of_nat (length table) + 1) 0); [lia|].
    rewrite !Z.min_l by lia.
    destruct (Z.ltb_spec (key + Z.of_nat (length table))
                (key + Z.of_nat (length table) + 1)); [|lia].
    by rewrite Hrow.
  - destruct (lookup_lt_is_Some_2 table (Z.to_nat key)) as [row Hrow]; [lia|].
    exists row.
    destruct (Z.ltb_spec key 0); [lia|].
    destruct (Z.ltb_spec (key + 1) 0); [lia|].
    rewrite !Z.min_l by lia.
    destruct (Z.ltb_spec key (key + 1)); [|lia]. by rewrite Hrow.
Qed.

(** A key at or beyond the end, one just before the doubled range, or
    one below it, is an [IndexError]. *)
Lemma table_getitem_out_of_range (table : list SurveyRow) (key : Z) :
  out_of_range table key -> table_getitem table key = Raise IndexError.
Proof.
  unfold out_of_range, table_getitem, slice_indices. intros Hr.
  destruct (Z.leb_spec (Z.of_nat (length table)) key); [done|].
  destruct (Z.ltb_spec key 0); [|lia].
  destruct (Z.ltb_spec (key + Z.of_nat (length table)) 0); [|lia].
  destruct (Z.ltb_spec (key + Z.of_nat (length table) + 1) 0).
  - destruct (Z.ltb_spec (Z.max (key + Z.of_nat (length table) + Z.of_nat (length table)) 0)
                (Z.max (key + Z.of_nat (length table) + 1 + Z.of_nat (length table)) 0));
      [lia|done].
  - destruct (Z.ltb_spec (Z.max (key + Z.of_nat (length table) + Z.of_nat (length table)) 0)
                (Z.min (key + Z.of_nat (length table) + 1) (Z.of_nat (length table))));
      [lia|done].
Qed.

(** Reading a row fails with [IndexError] only, and only at those keys. *)
Lemma table_getitem_raises (table : list SurveyRow) (key : Z) (e : exn) :
  table_getitem table key = Raise e -> e = IndexError /\ out_of_range table key.
Proof.
  intros Hget.
  assert (He : e = IndexError).
  { unfold table_getitem in Hget.
    destruct (Z.of_nat (length table) <=? key); [congruence|].
    destruct (slice_indices _ _ _) as [start stop].
    destruct (start <? stop); [|congruence].
    destruct (table !! Z.to_nat start); congruence. }
  split; [done|]. unfold out_of_range.
  destruct (decide (Z.of_nat (length table) <= key)); [by left|].
  destruct (decide (key = - Z.of_nat (length table) - 1)); [by right; left|].
  destruct (decide (key < - 2 * Z.of_nat (length table))); [by right; right|].
  exfalso.
  destruct (decide (- Z.of_nat (length table) <= key)) as [Hin|Hwrap].
  - destruct (table_getitem_in_range table key) as [row Hrow]; [unfold in_range; lia|].
    congruence.
  - unfold table_getitem, slice_indices in Hget.
    destruct (Z.leb_spec (Z.of_nat (length table)) key); [lia|].
    destruct (Z.ltb_spec key 0); [|lia].
    destruct (Z.ltb_spec (key + Z.of_nat (length table)) 0); [|lia].
    destruct (Z.ltb_spec (key + Z.of_nat (length table) + 1) 0); [|lia].
    rewrite !Z.max_l in Hget by lia.
    destruct (Z.ltb_spec (key + Z.of_nat (length table) + Z.of_nat (length table))
                (key + Z.of_nat (length table) + 1 + Z.of_nat (length table))); [|lia].
    destruct (lookup_lt_is_Some_2 table
                (Z.to_nat (key + Z.of_nat (length table) + Z.of_nat (length table))))
      as [row Hrow]; [lia|].
    rewrite Hrow in Hget. congruence.
Qed.

Lemma unit_outcome_found (table : list SurveyRow) (p : fit_parameters)
    (row_index : Z) (row : SurveyRow) :
  table_getitem table row_index = Ok row ->
  unit_outcome table p row_index = entries row_index (fit_spectrum row p).
Proof. intros Hget. unfold unit_outcome, do_fit. by rewrite Hget. Qed.

Lemma unit_outcome_not_found (table : list SurveyRow) (p : fit_parameters)
    (row_index : Z) (e : exn) :
  table_getitem table row_index = Raise e ->
  unit_outcome table p row_index = ([], Raise e).
Proof. intros Hget. unfold unit_outcome, do_fit. by rewrite Hget. Qed.

(** The entries of a work unit carry its identifier and its
    coordinates. *)
Lemma batch_coordinates (table : list SurveyRow) (p : fit_parameters) (row_index : Z) :
  Forall (fun e => hpxindex e = row_index /\
                   glon e = f32 (glon_of row_index) /\
                   glat e = f32 (glat_of row_index))
         (batch table p row_index).
Proof.
  unfold batch, unit_outcome, do_fit.
  destruct (table_getitem table row_index) as [row|e]; [|constructor].
  by apply entries_Forall.
Qed.

(** The three ways a work unit can go: its row is not found; its fit
    has no zero width; its fit has a first component of zero width. *)
Lemma batch_not_found (table : list SurveyRow) (p : fit_parameters)
    (row_index : Z) (e : exn) :
  table_getitem table row_index = Raise e ->
  batch table p row_index = [] /\ snd (unit_outcome table p row_index) = Raise e.
Proof. intros Hget. unfold batch. by rewrite (unit_outcome_not_found _ _ _ e). Qed.

Lemma batch_whole (table : list SurveyRow) (p : fit_parameters)
    (row_index : Z) (row : SurveyRow) :
  table_getitem table row_index = Ok row ->
  nonzero_sigmas (fit_spectrum row p) ->
  batch table p row_index
  = map (record_of row_index (fit_spectrum row p))
        (seq 0 (length (fit_spectrum row p) / 3)) /\
  snd (unit_outcome table p row_index) = Ok tt.
Proof.
  intros Hget Hnz. unfold batch.
  by rewrite (unit_outcome_found _ _ _ row), entries_whole.
Qed.

Lemma batch_partial (table : list SurveyRow) (p : fit_parameters)
    (row_index : Z) (row : SurveyRow) (k : nat) :
  table_getitem table row_index = Ok row ->
  first_zero_sigma (fit_spectrum row p) k ->
  batch table p row_index = map (record_of row_index (fit_spectrum row p)) (seq 0 k) /\
  snd (unit_outcome table p row_index) = Raise ZeroDivisionError.
Proof.
  intros Hget Hk. unfold batch.
  by rewrite (unit_outcome_found _ _ _ row), (entries_partial _ _ k).
Qed.

(** *** The loop over the results *)

Lemma completes_all (table : list SurveyRow) (p : fit_parameters) (work : list Z) :
  Forall (completes table p) work ->
  attempted table p work = work /\
  completed table p work = work /\
  loop_result table p work = Ok tt.
Proof.
  induction 1 as [|i work Hi _ (IH1 & IH2 & IH3)]; [done|]. simpl.
  unfold completes in Hi. by rewrite Hi, IH1, IH2, IH3.
Qed.

Lemma loop_result_Ok (table : list SurveyRow) (p : fit_parameters) (work : list Z) :
  loop_result table p work = Ok tt -> Forall (completes table p) work.
Proof.
  induction work as [|i work IH]; [constructor|]. simpl.
  destruct (snd (unit_outcome table p i)) as [[]|e] eqn:Hi; [|done].
  intros Hrest. constructor; [done|by apply IH].
Qed.

Lemma attempted_until (table : list SurveyRow) (p : fit_parameters)
    (done_ rest : list Z) (bad : Z) (e : exn) :
  Forall (completes table p) done_ ->
  snd (unit_outcome table p bad) = Raise e ->
  attempted table p (done_ ++ bad :: rest) = done_ ++ [bad] /\
  completed table p (done_ ++ bad :: rest) = done_ /\
  loop_result table p (done_ ++ bad :: rest) = Raise e.
Proof.
  intros Hd Hbad. induction Hd as [|i work Hi _ (IH1 & IH2 & IH3)]; simpl.
  - by rewrite Hbad.
  - unfold completes in Hi. by rewrite Hi, IH1, IH2, IH3.
Qed.

(** All the units the loop gets to complete, but for the last when the
    loop ends with an exception. *)
Lemma attempted_completed (table : list SurveyRow) (p : fit_parameters) (work : list Z) :
  match loop_result table p work with
  | Ok _ => attempted table p work = completed table p work
  | Raise _ => exists bad, attempted table p work = completed table p work ++ [bad] /\
                           ~ completes table p bad
  end.
Proof.
  induction work as [|i work IH]; [done|]. simpl.
  destruct (snd (unit_outcome table p i)) as [[]|e] eqn:Hi.
  - destruct (loop_result table p work); [by rewrite IH|].
    destruct IH as (bad & -> & Hbad). by exists bad.
  - exists i. split; [done|]. unfold completes. by rewrite Hi.
Qed.

(** One turn of the loop: the entries of the unit are appended, all of
    them or those before the component that raised, and the store is
    flushed when the turn ends well on a multiple of 1000. *)
Lemma handle_result_spec (out : string) (table : list SurveyRow)
    (p : fit_parameters) (row_index : Z) (w : world) :
  has_table out w ->
  exists w',
    handle_result out table p row_index w
      = (snd (unit_outcome table p row_index), w') /\
    extends out w w' (batch table p row_index) /\
    log w' = log w ++
      match snd (unit_outcome table p row_index) with
      | Ok _ => if row_index mod 1000 =? 0 then [EvFlush] else []
      | Raise _ => []
      end.
Proof.
  intros Ht. rewrite handle_result_eq. cbv zeta.
  set (w1 := mkWorld _ _ _).
  assert (Ht1 : has_table out w1) by (by apply (has_table_fs out w)).
  assert (Hw1 : written out w1 = written out w ++ batch table p row_index).
  { unfold written, stored. simpl. by rewrite app_assoc. }
  assert (Hext : extends out w w1 (batch table p row_index)) by (by repeat split).
  destruct (snd (unit_outcome table p row_index)) as [[]|e].
  - destruct (row_index mod 1000 =? 0).
    + eexists. split; [reflexivity|]. split; [|reflexivity].
      repeat split.
      * rewrite <- Hw1. apply (written_flush out w1 Ht1).
      * by apply (has_table_flushed out w1).
      * intros path Hne. simpl. by rewrite flushed_other.
    + exists w1. split; [done|]. split; [done|]. simpl. by rewrite app_nil_r.
  - exists w1. split; [done|]. split; [done|]. simpl. by rewrite app_nil_r.
Qed.

(** The whole loop: the batches of the units it gets to, one after the
    other, and a flush at each completed unit whose identifier is a
    multiple of 1000. *)
Lemma for_results_spec (out : string) (table : list SurveyRow)
    (p : fit_parameters) (work : list Z) (w : world) :
  has_table out w ->
  exists w',
    for_results out table p work w = (loop_result table p work, w') /\
    extends out w w' (concat (map (batch table p) (attempted table p work))) /\
    log w' = log w ++ map (fun _ => EvFlush) (flush_points (completed table p work)).
Proof.
  revert w. induction work as [|i work IH]; intros w Ht.
  - exists w. split; [reflexivity|]. split; [by apply extends_refl|].
    simpl. by rewrite app_nil_r.
  - destruct (handle_result_spec out table p i w Ht) as (w1 & Hrun & Hext & Hlog).
    cbn [for_results attempted completed loop_result]. unfold bind. rewrite Hrun.
    destruct (snd (unit_outcome table p i)) as [[]|e] eqn:Hi.
    + destruct (IH w1 (proj1 (proj2 Hext))) as (w2 & Hrun2 & Hext2 & Hlog2).
      exists w2. split; [done|]. split.
      * cbn [map concat]. by apply (extends_trans out w w1 w2).
      * rewrite Hlog2, Hlog. simpl.
        destruct (i mod 1000 =? 0); simpl; by rewrite <- app_assoc.
    + exists w1. split; [done|]. split.
      * cbn [map concat]. by rewrite app_nil_r.
      * rewrite Hlog. reflexivity.
Qed.

(** *** fit_spectra, step by step *)

Lemma fit_spectra_eq (arguments : Namespace) (w : world) (table : list SurveyRow) :
  infile arguments <> outname arguments ->
  has_survey (infile arguments) w table ->
  has_table (outname arguments) w ->
  fit_spectra arguments w =
  let out := outname arguments in
  let w0 := pool_started arguments w in
  match parse_config (config arguments) with
  | None => (Raise ConfigError, close_store out w0)
  | Some c =>
      match c !! "fit_parameters"%string with
      | None => (Raise KeyError, close_store out w0)
      | Some p =>
          match get_row_index (nsamples arguments) (hpxindices arguments) table with
          | Raise e => (Raise e, close_store out w0)
          | Ok work =>
              let '(r, w2) := for_results out table p work w0 in
              (match r with Ok _ => Ok 0 | Raise e => Raise e end,
               close_store out w2)
          end
      end
  end.
Proof.
  intros Hne (fi & Hfi & Hsv) (fo & t & Hfo & Hgd).
  unfold fit_spectra, bind, open_append. rewrite Hfo.
  unfold fit_spectra_body, bind, emit, open_survey, open_gaussdec, lift. simpl.
  assert (Heqb : String.eqb (infile arguments) (outname arguments) = false)
    by (by apply String.eqb_neq).
  rewrite Heqb, Hfi, Hsv. cbn [fs]. rewrite Hfo. destruct fo as [sv g]. simpl in Hgd. subst g.
  destruct (parse_config (config arguments)) as [c|]; [|reflexivity].
  destruct (c !! "fit_parameters"%string) as [p|]; [|reflexivity].
  destruct (get_row_index _ _ table) as [work|e]; [|reflexivity].
  unfold pool_started.
  destruct (for_results _ table p work _) as [[[]|e] w2]; reflexivity.
Qed.

(** With the source path equal to the output path, the source cannot be
    opened while the output is open for appending. *)
Lemma fit_spectra_same_file (arguments : Namespace) (w : world) :
  infile arguments = outname arguments ->
  is_Some (fs w !! outname arguments) ->
  fit_spectra arguments w =
  (Raise ValueError, close_store (outname arguments) (pool_started arguments w)).
Proof.
  intros Hsame [fo Hfo].
  unfold fit_spectra, bind, open_append. rewrite Hfo.
  unfold fit_spectra_body, bind, emit, open_survey. cbn [fs].
  assert (Heqb : String.eqb (infile arguments) (outname arguments) = true)
    by (by apply String.eqb_eq).
  by rewrite Heqb.
Qed.

(** A run whose setup succeeds: the table ends with the batches of the
    units the loop got to, in the order of the work units, and the store
    is closed whatever the loop ends with. *)
Lemma fit_spectra_spec (arguments : Namespace) (w : world)
    (table : list SurveyRow) (c : gmap string fit_parameters)
    (p : fit_parameters) (work : list Z) :
  infile arguments <> outname arguments ->
  has_survey (infile arguments) w table ->
  has_table (outname arguments) w ->
  parse_config (config arguments) = Some c ->
  c !! "fit_parameters"%string = Some p ->
  get_row_index (nsamples arguments) (hpxindices arguments) table = Ok work ->
  exists w',
    fit_spectra arguments w =
      (match loop_result table p work with Ok _ => Ok 0 | Raise e => Raise e end, w') /\
    stored (outname arguments) w' =
      written (outname arguments) w
      ++ concat (map (batch table p) (attempted table p work)) /\
    buf w' = [] /\
    log w' = log w ++ [EvPoolStart (infile arguments)]
                   ++ map (fun _ => EvFlush) (flush_points (completed table p work))
                   ++ [EvClose].
Proof.
  intros Hne Hsv Ht Hc Hp Hwork.
  rewrite (fit_spectra_eq arguments w table Hne Hsv Ht), Hc, Hp, Hwork. simpl.
  assert (Ht0 : has_table (outname arguments) (pool_started arguments w))
    by (by apply (has_table_fs _ w)).
  destruct (for_results_spec (outname arguments) table p work _ Ht0)
    as (w2 & Hrun & (Hw & Ht2 & _) & Hlog).
  rewrite Hrun. eexists. split; [reflexivity|]. split; [|split].
  - rewrite (written_close _ w2 Ht2), Hw. reflexivity.
  - reflexivity.
  - simpl. rewrite Hlog. simpl. by rewrite <- !app_assoc.
Qed.

Lemma full_scan_work (arguments : Namespace) (table : list SurveyRow) :
  hpxindices arguments = None ->
  nsamples arguments < 0 ->
  get_row_index (nsamples arguments) (hpxindices arguments) table
  = Ok (range (length table)).
Proof.
  intros Hx Hn. unfold get_row_index. rewrite Hx.
  by destruct (Z.ltb_spec (nsamples arguments) 0); [|lia].
Qed.

Lemma length_range (n : nat) : length (range n) = n.
Proof. unfold range. by rewrite length_map, length_seq. Qed.

Lemma lookup_range (n i : nat) : (i < n)%nat -> range n !! i = Some (Z.of_nat i).
Proof. intros Hi. unfold range. by rewrite list_lookup_fmap, lookup_seq_lt. Qed.

(** In a full scan the work unit [i] is the fit of the row stored at
    position [i]. *)
Lemma unit_outcome_position (table : list SurveyRow) (p : fit_parameters)
    (i : nat) (row : SurveyRow) :
  table !! i = Some row ->
  unit_outcome table p (Z.of_nat i) = entries (Z.of_nat i) (fit_spectrum row p).
Proof. intros Hrow. apply unit_outcome_found. by apply table_getitem_position. Qed.

(** The first [k] rows of a table whose fits have no zero width are
    work units that complete. *)
Lemma completes_range (table : list SurveyRow) (p : fit_parameters) (k : nat) :
  (k <= length table)%nat ->
  (forall (i : nat) (row : SurveyRow), (i < k)%nat -> table !! i = Some row ->
     nonzero_sigmas (fit_spectrum row p)) ->
  Forall (completes table p) (range k).
Proof.
  intros Hk Hnz. unfold range. apply Forall_map, Forall_forall.
  intros i Hi%elem_of_seq. simpl.
  destruct (lookup_lt_is_Some_2 table i) as [row Hrow]; [lia|].
  unfold completes. rewrite (unit_outcome_position table p i row Hrow).
  rewrite entries_whole; [done|]. apply (Hnz i row); [lia|done].
Qed.

(** The batches of a full scan whose fits have no zero width. *)
Lemma batches_of_range (table : list SurveyRow) (p : fit_parameters) :
  (forall (i : nat) (row : SurveyRow), table !! i = Some row ->
     nonzero_sigmas (fit_spectrum row p)) ->
  map (batch table p) (range (length table)) =
  imap (fun i row => map (record_of (Z.of_nat i) (fit_spectrum row p))
                         (seq 0 (length (fit_spectrum row p) / 3))) table.
Proof.
  intros Hnz. apply list_eq. intros i. unfold range.
  rewrite !list_lookup_fmap, list_lookup_imap.
  destruct (table !! i) as [row|] eqn:Hrow.
  - rewrite lookup_seq_lt by (by apply lookup_lt_Some in Hrow). simpl.
    unfold batch. rewrite (unit_outcome_position table p i row Hrow).
    rewrite entries_whole; [done|]. by apply (Hnz i row).
  - rewrite lookup_seq_ge by (by apply lookup_ge_None in Hrow). done.
Qed.

(** *** The result normalizer *)

(** C2, and where the code departs from it: for a raw fit result of
    [3 * N] values of which no [sigma_c] reads back as zero, one turn of
    the loop appends exactly [N] entries with the identifier and the
    coordinates of the work unit and raises nothing; none for the empty
    result. When component [k] is the first whose [sigma_c] reads back
    as zero, the turn appends the [k] entries before it and raises
    [ZeroDivisionError]. *)
Theorem normalizer_cardinality (out : string) (table : list SurveyRow)
    (p : fit_parameters) (row_index : Z) (row : SurveyRow) (N : nat) (w : world) :
  has_table out w ->
  table_getitem table row_index = Ok row ->
  length (fit_spectrum row p) = (3 * N)%nat ->
  let shared := fun e => hpxindex e = row_index /\
                         glon e = f32 (glon_of row_index) /\
                         glat e = f32 (glat_of row_index) in
  (nonzero_sigmas (fit_spectrum row p) ->
   exists w' es,
     handle_result out table p row_index w = (Ok tt, w') /\
     written out w' = written out w ++ es /\
     length es = N /\
     Forall shared es /\
     (N = 0%nat -> written out w' = written out w)) /\
  (forall k : nat, first_zero_sigma (fit_spectrum row p) k ->
   exists w' es,
     handle_result out table p row_index w = (Raise ZeroDivisionError, w') /\
     written out w' = written out w ++ es /\
     length es = k /\ (k < N)%nat /\
     Forall shared es).
Proof.
  intros Ht Hget Hlen shared.
  assert (HN : (length (fit_spectrum row p) / 3 = N)%nat).
  { rewrite Hlen. symmetry. apply (Nat.div_unique _ 3 N 0); lia. }
  destruct (handle_result_spec out table p row_index w Ht) as (w' & Hrun & (Hw & _) & _).
  pose proof (batch_coordinates table p row_index) as Hsh.
  unfold batch in Hw, Hsh. rewrite (unit_outcome_found table p row_index row Hget) in *.
  split.
  - intros Hnz. rewrite entries_whole in * by done. cbn [fst snd] in *.
    exists w', (map (record_of row_index (fit_spectrum row p))
                    (seq 0 (length (fit_spectrum row p) / 3))).
    split; [done|]. split; [done|].
    split; [by rewrite length_map, length_seq|]. split; [done|].
    intros HN0. rewrite Hw, HN, HN0. simpl. by rewrite app_nil_r.
  - intros k Hk. rewrite (entries_partial _ _ k) in * by done. cbn [fst snd] in *.
    exists w', (map (record_of row_index (fit_spectrum row p)) (seq 0 k)).
    split; [done|]. split; [done|].
    split; [by rewrite length_map, length_seq|]. split; [|done].
    destruct Hk as [Hk _]. lia.
Qed.

(** C10, and where the code departs from it: a raw fit result whose
    length [L] is not a multiple of 3 makes the normalizer go through
    its [L / 3] whole triplets only; the [L mod 3] values after them are
    not read. When no [sigma_c] of a whole triplet reads back as zero,
    the [L / 3] entries are appended and nothing is raised; when
    component [k] is the first that does, the [k] entries before it are
    appended and [ZeroDivisionError] is raised. *)
Theorem normalizer_truncates (out : string) (table : list SurveyRow)
    (p : fit_parameters) (row_index : Z) (row : SurveyRow)
    (triplets tail : list R) (w : world) :
  has_table out w ->
  table_getitem table row_index = Ok row ->
  fit_spectrum row p = triplets ++ tail ->
  (length triplets mod 3 = 0)%nat ->
  (0 < length tail < 3)%nat ->
  let L := length (fit_spectrum row p) in
  length tail = (L mod 3)%nat /\
  (nonzero_sigmas triplets ->
   exists w',
     handle_result out table p row_index w = (Ok tt, w') /\
     written out w' = written out w
                      ++ map (record_of row_index triplets) (seq 0 (L / 3))) /\
  (forall k : nat, first_zero_sigma triplets k ->
   exists w',
     handle_result out table p row_index w = (Raise ZeroDivisionError, w') /\
     (k < L / 3)%nat /\
     written out w' = written out w
                      ++ map (record_of row_index triplets) (seq 0 k)).
Proof.
  intros Ht Hget Hfit Hmul Htail L.
  assert (HN : length triplets = (3 * (length triplets / 3))%nat).
  { pose proof (Nat.div_mod_eq (length triplets) 3). lia. }
  assert (HL : L = (3 * (length triplets / 3) + length tail)%nat).
  { unfold L. rewrite Hfit, length_app. lia. }
  assert (Hq : (L / 3 = length triplets / 3)%nat).
  { rewrite HL. symmetry. apply (Nat.div_unique _ 3 _ (length tail)); lia. }
  split.
  { rewrite HL. apply (Nat.mod_unique _ 3 (length triplets / 3)); lia. }
  destruct (handle_result_spec out table p row_index w Ht) as (w' & Hrun & (Hw & _) & _).
  unfold batch in Hw. rewrite (unit_outcome_found table p row_index row Hget) in *.
  rewrite Hfit in Hrun, Hw.
  rewrite (entries_app row_index triplets tail _ HN) in Hrun, Hw by lia.
  split.
  - intros Hnz. rewrite entries_whole in * by done. cbn [fst snd] in *.
    exists w'. split; [done|]. by rewrite Hq.
  - intros k Hk. rewrite (entries_partial _ _ k) in * by done. cbn [fst snd] in *.
    exists w'. split; [done|]. split; [|done]. destruct Hk as [Hk _]. lia.
Qed.

(** The derived fields of an entry: [peak] is the stored value of
    [amplitude / 2 / PI / sigma_c], [center_kms] that of the calibration's
    channel-to-velocity transform of [center_c], and [sigma_kms] that of
    [sigma_c * CDELT3], all three computed from the values that the row
    holds. *)
Lemma derived_fields (row_index : Z) (fitresults : list R) :
  Forall (fun e =>
            sigma_c e <> 0%R /\
            peak e = f32 (amplitude e / 2 / PI / sigma_c e)%R /\
            center_kms e = f32 (channel2velo (center_c e)) /\
            sigma_kms e = f32 (sigma_c e * CDELT3)%R)
         (fst (entries row_index fitresults)).
Proof. apply entries_Forall. intros i Hi Hnz. by repeat split. Qed.

(** *** The claims about a run *)

(** C1, as the code has it: in a full scan the [hpxindex] of a record is
    the work-unit identifier, that is the position of the row its fit
    came from; the [HPXINDEX] field of the row is not consulted. The
    table ends with the batches of the units the scan got to; when no
    fitted [sigma_c] reads back as zero, with the whole batch of every
    position. *)
Theorem full_scan_hpxindex (arguments : Namespace) (w : world)
    (table : list SurveyRow) (c : gmap string fit_parameters) (p : fit_parameters) :
  infile arguments <> outname arguments ->
  has_survey (infile arguments) w table ->
  has_table (outname arguments) w ->
  parse_config (config arguments) = Some c ->
  c !! "fit_parameters"%string = Some p ->
  hpxindices arguments = None ->
  nsamples arguments < 0 ->
  let work := range (length table) in
  exists w',
    fit_spectra arguments w =
      (match loop_result table p work with Ok _ => Ok 0 | Raise e => Raise e end, w') /\
    stored (outname arguments) w' =
      written (outname arguments) w
      ++ concat (map (batch table p) (attempted table p work)) /\
    (forall (i : nat) (row : SurveyRow), table !! i = Some row ->
       batch table p (Z.of_nat i) = fst (entries (Z.of_nat i) (fit_spectrum row p)) /\
       Forall (fun e => hpxindex e = Z.of_nat i) (batch table p (Z.of_nat i))) /\
    ((forall (i : nat) (row : SurveyRow), table !! i = Some row ->
        nonzero_sigmas (fit_spectrum row p)) ->
     fit_spectra arguments w = (Ok 0, w') /\
     stored (outname arguments) w' =
       written (outname arguments) w ++
       concat (imap (fun i row => map (record_of (Z.of_nat i) (fit_spectrum row p))
                                      (seq 0 (length (fit_spectrum row p) / 3)))
                    table)).
Proof.
  intros Hne Hsv Ht Hc Hp Hx Hn work.
  pose proof (full_scan_work arguments table Hx Hn) as Hwork.
  destruct (fit_spectra_spec arguments w table c p _ Hne Hsv Ht Hc Hp Hwork)
    as (w' & Hrun & Hst & _).
  exists w'. split; [done|]. split; [done|]. split.
  - intros i row Hrow. split.
    + unfold batch. by rewrite (unit_outcome_position table p i row Hrow).
    + eapply Forall_impl; [apply batch_coordinates|]. by intros e (He & _).
  - intros Hnz.
    assert (Hall : Forall (completes table p) (range (length table))).
    { apply completes_range; [done|]. intros i row _. apply Hnz. }
    destruct (completes_all table p _ Hall) as (Hatt & _ & Hok).
    rewrite Hok in Hrun. rewrite Hatt, batches_of_range in Hst by done. done.
Qed.

(** C9, and where the code departs from it: the records of one work
    unit are in the output table as one uninterrupted run, but not always
    all of them: the table ends with the batches of the units the loop
    got to, in the order the results were received; every one of them is
    whole but for the last, when the loop ends with an exception; and a
    unit whose fit has a first component [k] with a [sigma_c] that reads
    back as zero leaves its first [k] records only. *)
Theorem batches_contiguous (arguments : Namespace) (w : world)
    (table : list SurveyRow) (c : gmap string fit_parameters) (p : fit_parameters)
    (work : list Z) :
  infile arguments <> outname arguments ->
  has_survey (infile arguments) w table ->
  has_table (outname arguments) w ->
  parse_config (config arguments) = Some c ->
  c !! "fit_parameters"%string = Some p ->
  get_row_index (nsamples arguments) (hpxindices arguments) table = Ok work ->
  let out := outname arguments in
  let w' := snd (fit_spectra arguments w) in
  stored out w' = written out w ++ concat (map (batch table p) (attempted table p work)) /\
  (forall (before after : list Z) (unit : Z),
    attempted table p work = before ++ unit :: after ->
    stored out w' =
      (written out w ++ concat (map (batch table p) before))
      ++ batch table p unit
      ++ concat (map (batch table p) after)) /\
  match loop_result table p work with
  | Ok _ => attempted table p work = completed table p work
  | Raise _ => exists last, attempted table p work = completed table p work ++ [last] /\
                            ~ completes table p last
  end /\
  (forall (unit : Z) (row : SurveyRow),
     table_getitem table unit = Ok row ->
     (completes table p unit ->
      batch table p unit = map (record_of unit (fit_spectrum row p))
                               (seq 0 (length (fit_spectrum row p) / 3))) /\
     (forall k : nat, first_zero_sigma (fit_spectrum row p) k ->
        ~ completes table p unit /\
        (k < length (fit_spectrum row p) / 3)%nat /\
        batch table p unit = map (record_of unit (fit_spectrum row p)) (seq 0 k))).
Proof.
  intros Hne Hsv Ht Hc Hp Hwork out w'.
  destruct (fit_spectra_spec arguments w table c p work Hne Hsv Ht Hc Hp Hwork)
    as (w1 & Hrun & Hst & _).
  assert (Hw' : w' = w1) by (unfold w'; by rewrite Hrun).
  rewrite Hw'. split; [done|]. split; [|split].
  - intros before after unit Hsplit. unfold out. rewrite Hst, Hsplit.
    rewrite map_app, concat_app. simpl. by rewrite <- !app_assoc.
  - apply attempted_completed.
  - intros unit row Hget. unfold completes, batch.
    rewrite (unit_outcome_found table p unit row Hget). split.
    + intros Hok. destruct (length_entries_whole unit _ Hok) as [Hnz _].
      by rewrite entries_whole.
    + intros k Hk. rewrite (entries_partial _ _ k) by done. cbn [fst snd].
      split; [done|]. split; [|done]. by destruct Hk.
Qed.

(** C5, as the code has it: the [IndexError] of a fit task comes out of
    the loop over the results and ends the run; the batches of the units
    before it, which all completed, are in the table, those of the units
    after it are not. The identifiers at which the fit task raises are
    exactly those of [out_of_range]. *)
Theorem bad_unit_aborts (arguments : Namespace) (w : world)
    (table : list SurveyRow) (c : gmap string fit_parameters) (p : fit_parameters)
    (done_ rest : list Z) (bad : Z) :
  infile arguments <> outname arguments ->
  has_survey (infile arguments) w table ->
  has_table (outname arguments) w ->
  parse_config (config arguments) = Some c ->
  c !! "fit_parameters"%string = Some p ->
  get_row_index (nsamples arguments) (hpxindices arguments) table
    = Ok (done_ ++ bad :: rest) ->
  Forall (completes table p) done_ ->
  out_of_range table bad ->
  (forall key : Z,
     out_of_range table key <-> exists e, table_getitem table key = Raise e) /\
  do_fit table bad (Some p) = Raise IndexError /\
  exists w',
    fit_spectra arguments w = (Raise IndexError, w') /\
    stored (outname arguments) w' =
      written (outname arguments) w ++ concat (map (batch table p) done_) /\
    buf w' = [].
Proof.
  intros Hne Hsv Ht Hc Hp Hwork Hdone Hbad.
  pose proof (table_getitem_out_of_range table bad Hbad) as Hget.
  split.
  { intros key. split.
    - intros Hkey. exists IndexError. by apply table_getitem_out_of_range.
    - intros [e He]. by apply (table_getitem_raises table key e). }
  split.
  { unfold do_fit. by rewrite Hget. }
  destruct (fit_spectra_spec arguments w table c p _ Hne Hsv Ht Hc Hp Hwork)
    as (w' & Hrun & Hst & Hbuf & _).
  pose proof (unit_outcome_not_found table p bad IndexError Hget) as Hbadu.
  destruct (attempted_until table p done_ rest bad IndexError Hdone) as (Hatt & _ & Hres).
  { by rewrite Hbadu. }
  rewrite Hres in Hrun. rewrite Hatt, map_app, concat_app in Hst.
  cbn [map concat] in Hst. unfold batch at 2 in Hst. rewrite Hbadu in Hst.
  simpl in Hst. rewrite app_nil_r in Hst. by exists w'.
Qed.

(** C6, as the code has it: a configuration file that is rejected and a
    sample count larger than the table are both found after the pool is
    started; the run then ends with the exception, no work unit is
    fitted, no record is written, and an oversized sample count yields
    no sample at all. With the source path equal to the output path the
    run ends at the same point, with the [ValueError] of opening the
    source. *)
Theorem config_errors_after_pool_start (arguments : Namespace) (w : world)
    (table : list SurveyRow) :
  has_survey (infile arguments) w table ->
  has_table (outname arguments) w ->
  buf w = [] ->
  let aborted :=
    mkWorld (fs w) [] (log w ++ [EvPoolStart (infile arguments); EvClose]) in
  let same_file := String.eqb (infile arguments) (outname arguments) in
  (parse_config (config arguments) = None ->
   fit_spectra arguments w
   = (Raise (if same_file then ValueError else ConfigError), aborted)) /\
  (forall (c : gmap string fit_parameters) (p : fit_parameters),
     parse_config (config arguments) = Some c ->
     c !! "fit_parameters"%string = Some p ->
     hpxindices arguments = None ->
     Z.of_nat (length table) < nsamples arguments ->
     get_row_index (nsamples arguments) (hpxindices arguments) table
       = Raise ValueError /\
     fit_spectra arguments w = (Raise ValueError, aborted)).
Proof.
  intros Hsv Ht Hbuf aborted same_file.
  assert (Hclose : close_store (outname arguments) (pool_started arguments w) = aborted).
  { unfold close_store, aborted. simpl. f_equal.
    - by apply (flushed_nil _ (pool_started arguments w)).
    - by rewrite <- app_assoc. }
  assert (Hsame : same_file = true ->
                  fit_spectra arguments w = (Raise ValueError, aborted)).
  { intros Heq%String.eqb_eq. rewrite fit_spectra_same_file, Hclose; [done..|].
    destruct Ht as (f & t & Hf & _). by exists f. }
  split.
  - intros Hc. destruct same_file eqn:Hsf; [by apply Hsame|].
    apply String.eqb_neq in Hsf.
    rewrite (fit_spectra_eq arguments w table Hsf Hsv Ht), Hc.
    cbv zeta. by rewrite Hclose.
  - intros c p Hc Hp Hx Hn.
    assert (Hget : get_row_index (nsamples arguments) (hpxindices arguments) table
                   = Raise ValueError).
    { unfold get_row_index, random_choice. rewrite Hx.
      destruct (Z.ltb_spec (nsamples arguments) 0); [lia|].
      by destruct (Z.ltb_spec (Z.of_nat (length table)) (nsamples arguments)); [|lia]. }
    split; [done|]. destruct same_file eqn:Hsf; [by apply Hsame|].
    apply String.eqb_neq in Hsf.
    rewrite (fit_spectra_eq arguments w table Hsf Hsv Ht), Hc, Hp, Hget.
    cbv zeta. by rewrite Hclose.
Qed.

(** C7, at the inputs where the code departs from it: when no
    identifier of the work list is a multiple of 1000 the loop never
    flushes, however many units it completes; all their records stay in
    the buffer and the file is as it was. *)
Theorem no_flush_without_multiple_of_1000 (out : string) (table : list SurveyRow)
    (p : fit_parameters) (work : list Z) (w : world) :
  Forall (fun row_index => row_index mod 1000 <> 0) work ->
  (exists w',
     for_results out table p work w = (loop_result table p work, w') /\
     fs w' = fs w /\
     log w' = log w /\
     buf w' = buf w ++ concat (map (batch table p) (attempted table p work))) /\
  (Forall (completes table p) work ->
   loop_result table p work = Ok tt /\ attempted table p work = work).
Proof.
  intros Hwork. split.
  - revert w. induction Hwork as [|i work Hi _ IH]; intros w.
    + exists w. simpl. by rewrite app_nil_r.
    + cbn [for_results attempted loop_result]. unfold bind. rewrite handle_result_eq.
      cbv zeta.
      destruct (snd (unit_outcome table p i)) as [[]|e] eqn:Hout.
      * destruct (Z.eqb_spec (i mod 1000) 0); [done|].
        destruct (IH (mkWorld (fs w) (buf w ++ batch table p i) (log w)))
          as (w' & Hrun & Hfs & Hlog & Hbuf).
        exists w'. cbn [map concat]. simpl in *. by rewrite Hrun, Hbuf, <- app_assoc.
      * eexists. split; [reflexivity|]. simpl. by rewrite app_nil_r.
  - intros Hall. destruct (completes_all table p work Hall) as (Hatt & _ & Hok). done.
Qed.

(** *** The work enumerator *)

(** A table of a given length. *)
Lemma table_of_length (n : nat) : exists table : list SurveyRow, length table = n.
Proof. exists (replicate n (mkSurveyRow 0 [])). apply length_replicate. Qed.

(** C8, as the code has it: the enumerator is in full-scan mode, giving
    every row index of the table once and in ascending order, exactly
    when no index list is given and the sample count is negative; a
    sample count of zero is a sample. An index list, when given, decides
    the work whatever the sample count is. *)
Theorem full_scan_iff (nsamples : Z) (hpxindices : option string) :
  ((forall table : list SurveyRow,
      get_row_index nsamples hpxindices table = Ok (range (length table)))
   <-> hpxindices = None /\ nsamples < 0) /\
  (forall n i : nat, (i < n)%nat -> range n !! i = Some (Z.of_nat i)) /\
  (forall n : nat, length (range n) = n) /\
  (forall (path : string) (n' : Z) (table : list SurveyRow),
      hpxindices = Some path ->
      get_row_index nsamples hpxindices table = get_row_index n' hpxindices table).
Proof.
  split; [|split; [apply lookup_range|split; [apply length_range|]]].
  - split.
    + intros Hfull. destruct hpxindices as [path|].
      * exfalso. destruct (np_load path) as [indices|] eqn:Hload.
        -- destruct (table_of_length (S (length indices))) as [table Hlen].
           specialize (Hfull table). unfold get_row_index in Hfull.
           rewrite Hload in Hfull. injection Hfull as Hfull.
           apply (f_equal length) in Hfull. rewrite length_range in Hfull. lia.
        -- specialize (Hfull []). unfold get_row_index in Hfull.
           by rewrite Hload in Hfull.
      * split; [done|]. destruct (Z.ltb_spec nsamples 0) as [|Hn]; [done|]. exfalso.
        destruct (table_of_length (S (Z.to_nat nsamples))) as [table Hlen].
        specialize (Hfull table). unfold get_row_index, random_choice in Hfull.
        destruct (Z.ltb_spec nsamples 0); [lia|].
        destruct (Z.ltb_spec (Z.of_nat (length table)) nsamples); [done|].
        injection Hfull as Hfull. apply (f_equal length) in Hfull.
        rewrite length_range, length_map, length_take in Hfull. lia.
    + intros [-> Hn] table. unfold get_row_index.
      by destruct (Z.ltb_spec nsamples 0); [|lia].
  - by intros path n' table ->.
Qed.

(** *** Creating the output table *)

(** C4: with the output path taken and no clobber, [create_tables]
    raises the file-exists error and leaves the world as it is;
    otherwise it leaves at the path a new file whose table is empty,
    has its index on [hpxindex] and has [autoindex] set, and rows
    written later keep both. *)
Theorem create_or_abort (arguments : Namespace) (w : world) :
  (forall f : h5file,
     fs w !! outname arguments = Some f -> clobber arguments = false ->
     create_tables arguments w = (Raise (IOError "File already exists"), w)) /\
  (clobber arguments = true \/ fs w !! outname arguments = None ->
   exists w',
     create_tables arguments w = (Ok 0, w') /\
     fs w' = <[outname arguments := new_gaussdec_file]> (fs w) /\
     buf w' = buf w /\ log w' = log w /\
     stored (outname arguments) w' = [] /\
     gaussdec new_gaussdec_file = Some (mkTable [] ["hpxindex"%string] true)) /\
  (forall pending : list GaussDec,
     gaussdec (write_rows pending new_gaussdec_file)
     = Some (mkTable pending ["hpxindex"%string] true)).
Proof.
  split; [|split].
  - intros f Hf Hc. unfold create_tables, bind, isfile. by rewrite Hf, Hc.
  - intros Hcase. eexists. unfold create_tables, bind, isfile, put_file, ret.
    assert (Hb : (match fs w !! outname arguments with Some _ => true | None => false end
                  && negb (clobber arguments)) = false).
    { destruct Hcase as [-> | ->]; [apply andb_false_r|done]. }
    rewrite Hb. split; [reflexivity|]. simpl. repeat split.
    unfold stored. simpl. by rewrite lookup_insert_eq.
  - intros pending. reflexivity.
Qed.

End Properties.

(** ** Further properties of the pipeline *)

Section MoreProperties.

Context {C : Collaborators}.

(** *** The result normalizer, triplet by triplet *)

Lemma take_3 (l : list R) (n : nat) :
  (n + 3 <= length l)%nat ->
  take (n + 3) l = take n l ++ [nth n l 0%R; nth (n + 1) l 0%R; nth (n + 2) l 0%R].
Proof.
  intros Hn.
  destruct (lookup_lt_is_Some_2 l n) as [x Hx]; [lia|].
  destruct (lookup_lt_is_Some_2 l (S n)) as [y Hy]; [lia|].
  destruct (lookup_lt_is_Some_2 l (S (S n))) as [z Hz]; [lia|].
  replace (n + 3)%nat with (S (S (S n))) by lia.
  replace (n + 1)%nat with (S n) by lia.
  replace (n + 2)%nat with (S (S n)) by lia.
  rewrite (take_S_r l (S (S n)) z Hz), (take_S_r l (S n) y Hy), (take_S_r l n x Hx).
  rewrite (nth_lookup_Some l n 0%R x Hx), (nth_lookup_Some l (S n) 0%R y Hy),
    (nth_lookup_Some l (S (S n)) 0%R z Hz).
  by rewrite <- !app_assoc.
Qed.

(** The triplets of the first [k] records are the first [3 * k] values
    of the raw fit result, as the columns store them. *)
Lemma triplets_of_records (row_index : Z) (fitresults : list R) (k : nat) :
  (k <= length fitresults / 3)%nat ->
  concat (map triplet_of (map (record_of row_index fitresults) (seq 0 k)))
  = map f32 (take (k * 3) fitresults).
Proof.
  intros Hk.
  assert (Hlen : (length fitresults / 3 * 3 <= length fitresults)%nat).
  { pose proof (Nat.div_mod_eq (length fitresults) 3). lia. }
  induction k as [|k IH]; [done|].
  rewrite seq_S, !map_app, concat_app, IH by lia. cbn [map concat Nat.add].
  replace (S k * 3)%nat with (k * 3 + 3)%nat by lia.
  rewrite take_3 by nia. rewrite map_app. by rewrite app_nil_r.
Qed.


(** *** The work enumerator, sampling *)

(** X2: A sample count between 0 and the number of rows gives that many
    row indices of the table, no two of them equal, at each of which the
    fit task finds its row, whenever the generator draws a permutation
    of [range(nrows)]. *)
Theorem random_sample_distinct (nsamples : Z) (table : list SurveyRow) :
  0 <= nsamples <= Z.of_nat (length table) ->
  permutation (length table) ≡ₚ seq 0 (length table) ->
  exists work,
    get_row_index nsamples None table = Ok work /\
    length work = Z.to_nat nsamples /\
    NoDup work /\
    Forall (fun row_index => 0 <= row_index < Z.of_nat (length table)) work /\
    Forall (fun row_index => exists row, table_getitem table row_index = Ok row) work.
Proof.
  intros Hn Hperm. eexists. unfold get_row_index, random_choice.
  destruct (Z.ltb_spec nsamples 0); [lia|].
  destruct (Z.ltb_spec (Z.of_nat (length table)) nsamples); [lia|].
  split; [reflexivity|].
  assert (Hlen : length (permutation (length table)) = length table).
  { by rewrite Hperm, length_seq. }
  assert (Hrange : Forall (fun row_index => 0 <= row_index < Z.of_nat (length table))
                     (map Z.of_nat (take (Z.to_nat nsamples) (permutation (length table))))).
  { apply Forall_map, Forall_forall. intros i Hi. simpl.
    assert (Hi' : i ∈ seq 0 (length table)).
    { rewrite <- Hperm. by apply (subseteq_take (Z.to_nat nsamples)). }
    apply elem_of_seq in Hi'. lia. }
  split; [|split; [|split; [done|]]].
  - rewrite length_map, length_take. lia.
  - apply (NoDup_fmap_2 Z.of_nat).
    apply (sublist_NoDup _ (permutation (length table))); [|apply sublist_take].
    rewrite Hperm. apply NoDup_seq.
  - eapply Forall_impl; [exact Hrange|].
    intros i Hi. apply table_getitem_in_range. unfold in_range. simpl in Hi. lia.
Qed.

(** *** What the buffer holds, and the flushes of a full scan *)

(** After the loop, the buffer holds the entries of the units the loop
    got to since the last flush. *)
Lemma for_results_buf (out : string) (table : list SurveyRow)
    (p : fit_parameters) (work acc : list Z) (w : world) :
  Forall (completes table p) work ->
  buf w = concat (map (batch table p) acc) ->
  exists w',
    for_results out table p work w = (Ok tt, w') /\
    buf w' = concat (map (batch table p) (unflushed acc work)).
Proof.
  intros Hall. revert acc w. induction Hall as [|i work Hi _ IH]; intros acc w Hbuf.
  - by exists w.
  - cbn [for_results]. unfold bind. rewrite handle_result_eq. cbv zeta.
    unfold completes in Hi. rewrite Hi.
    cbn [unflushed]. destruct (i mod 1000 =? 0).
    + apply (IH []). reflexivity.
    + apply (IH (acc ++ [i])). cbn [buf].
      rewrite Hbuf, map_app, concat_app. cbn [map concat].
      by rewrite app_nil_r.
Qed.

Lemma range_S (k : nat) : range (S k) = range k ++ [Z.of_nat k].
Proof. unfold range. by rewrite seq_S, map_app. Qed.

Lemma unflushed_snoc (acc work : list Z) (i : Z) :
  unflushed acc (work ++ [i]) =
  if i mod 1000 =? 0 then [] else unflushed acc work ++ [i].
Proof.
  revert acc. induction work as [|j work IH]; intros acc; simpl.
  - by destruct (i mod 1000 =? 0).
  - destruct (j mod 1000 =? 0); apply IH.
Qed.

Lemma unflushed_suffix (acc work : list Z) :
  exists before, acc ++ work = before ++ unflushed acc work.
Proof.
  revert acc. induction work as [|j work IH]; intros acc; simpl.
  - exists []. by rewrite app_nil_r.
  - destruct (j mod 1000 =? 0).
    + destruct (IH []) as [before Hb]. exists (acc ++ j :: before).
      simpl in Hb. rewrite <- app_assoc. simpl. by do 2 f_equal.
    + destruct (IH (acc ++ [j])) as [before Hb]. exists before.
      by rewrite <- Hb, <- app_assoc.
Qed.

Lemma length_unflushed_range (k : nat) :
  Z.of_nat (length (unflushed [] (range (S k)))) = Z.of_nat k mod 1000.
Proof.
  induction k as [|k IH]; [reflexivity|].
  rewrite range_S, unflushed_snoc.
  destruct (Z.eqb_spec (Z.of_nat (S k) mod 1000) 0) as [E|E]; [by rewrite E|].
  rewrite length_app, Nat2Z.inj_add, IH. simpl length.
  rewrite Nat2Z.inj_succ in *. change (Z.of_nat 1) with 1.
  Z.div_mod_to_equations. lia.
Qed.


Lemma flush_points_range_S (k : nat) :
  flush_points (range (S k)) =
  flush_points (range k) ++ (if Z.of_nat k mod 1000 =? 0 then [Z.of_nat k] else []).
Proof. unfold flush_points. by rewrite range_S, List.filter_app. Qed.

Lemma length_flush_points_range (n : nat) :
  Z.of_nat (length (flush_points (range n))) = (Z.of_nat n + 999) / 1000.
Proof.
  induction n as [|n IH]; [reflexivity|].
  rewrite flush_points_range_S, length_app, Nat2Z.inj_add, IH.
  rewrite Nat2Z.inj_succ.
  destruct (Z.eqb_spec (Z.of_nat n mod 1000) 0) as [E|E]; simpl length;
    [change (Z.of_nat 1) with 1|change (Z.of_nat 0) with 0];
    Z.div_mod_to_equations; lia.
Qed.

Lemma map_const_replicate {A B : Type} (b : B) (l : list A) :
  map (fun _ => b) l = replicate (length l) b.
Proof. induction l as [|a l IH]; [done|]. simpl. by rewrite IH. Qed.

(** X3: A full scan of [n] rows whose fits have no [sigma_c] that reads
    back as zero succeeds and flushes once for every started thousand of
    rows: its trace is the start of the pool, [(n + 999) / 1000] flushes
    and the closing of the store. *)
Theorem full_scan_trace (arguments : Namespace) (w : world)
    (table : list SurveyRow) (c : gmap string fit_parameters) (p : fit_parameters) :
  infile arguments <> outname arguments ->
  has_survey (infile arguments) w table ->
  has_table (outname arguments) w ->
  parse_config (config arguments) = Some c ->
  c !! "fit_parameters"%string = Some p ->
  hpxindices arguments = None ->
  nsamples arguments < 0 ->
  (forall (i : nat) (row : SurveyRow), table !! i = Some row ->
     nonzero_sigmas (fit_spectrum row p)) ->
  exists w',
    fit_spectra arguments w = (Ok 0, w') /\
    log w' = log w ++ [EvPoolStart (infile arguments)]
                   ++ replicate ((length table + 999) / 1000) EvFlush
                   ++ [EvClose].
Proof.
  intros Hne Hsv Ht Hc Hp Hx Hn Hnz.
  pose proof (full_scan_work arguments table Hx Hn) as Hwork.
  destruct (fit_spectra_spec arguments w table c p _ Hne Hsv Ht Hc Hp Hwork)
    as (w' & Hrun & _ & _ & Hlog).
  assert (Hall : Forall (completes table p) (range (length table))).
  { apply completes_range; [done|]. intros i row _. apply Hnz. }
  destruct (completes_all table p _ Hall) as (_ & Hcompl & Hok).
  rewrite Hok in Hrun. rewrite Hcompl, map_const_replicate in Hlog.
  assert (Hcount : length (flush_points (range (length table)))
                   = ((length table + 999) / 1000)%nat).
  { apply Nat2Z.inj. rewrite length_flush_points_range.
    by rewrite Nat2Z.inj_div, Nat2Z.inj_add. }
  rewrite Hcount in Hlog. by exists w'.
Qed.

(** *** What a run does to the files *)

(** With the output table in place, a run ends in a closed store whose
    world extends the one the pool was started in. *)
Lemma fit_spectra_cases (arguments : Namespace) (w : world) :
  has_table (outname arguments) w ->
  exists r w2 new trace,
    fit_spectra arguments w = (r, close_store (outname arguments) w2) /\
    extends (outname arguments) (pool_started arguments w) w2 new /\
    log w2 = log w ++ EvPoolStart (infile arguments) :: trace.
Proof.
  intros Ht.
  assert (Ht0 : has_table (outname arguments) (pool_started arguments w))
    by (by apply (has_table_fs _ w)).
  assert (Hstop : forall r,
            fit_spectra arguments w
            = (r, close_store (outname arguments) (pool_started arguments w)) ->
            exists r w2 new trace,
              fit_spectra arguments w = (r, close_store (outname arguments) w2) /\
              extends (outname arguments) (pool_started arguments w) w2 new /\
              log w2 = log w ++ EvPoolStart (infile arguments) :: trace).
  { intros r Hr. exists r, (pool_started arguments w), [], [].
    split; [done|]. split; [by apply extends_refl|done]. }
  destruct (decide (infile arguments = outname arguments)) as [Hsame|Hne].
  { apply (Hstop (Raise ValueError)). apply fit_spectra_same_file; [done|].
    destruct Ht as (f & t & Hf & _). by exists f. }
  assert (Heqb : String.eqb (infile arguments) (outname arguments) = false)
    by (by apply String.eqb_neq).
  destruct (fs w !! infile arguments) as [fi|] eqn:Hfi;
    [destruct (survey fi) as [table|] eqn:Hsv|].
  - assert (Hs : has_survey (infile arguments) w table) by (by exists fi).
    pose proof (fit_spectra_eq arguments w table Hne Hs Ht) as Heq. cbv zeta in Heq.
    destruct (parse_config (config arguments)) as [c|]; [|by eapply Hstop].
    destruct (c !! "fit_parameters"%string) as [p|]; [|by eapply Hstop].
    destruct (get_row_index _ _ table) as [work|e]; [|by eapply Hstop].
    destruct (for_results_spec (outname arguments) table p work _ Ht0)
      as (w2 & Hrun & Hext & Hlog).
    rewrite Hrun in Heq. eexists _, w2, _, _. split; [exact Heq|]. split; [done|].
    rewrite Hlog. simpl. by rewrite <- app_assoc.
  - destruct Ht as (fo & t & Hfo & Hgd).
    apply (Hstop (Raise NoSuchNodeError)).
    unfold fit_spectra, bind, open_append. rewrite Hfo.
    unfold fit_spectra_body, bind, emit, open_survey. cbn [fs]. by rewrite Heqb, Hfi, Hsv.
  - destruct Ht as (fo & t & Hfo & Hgd).
    apply (Hstop (Raise (IOError "no such file"))).
    unfold fit_spectra, bind, open_append. rewrite Hfo.
    unfold fit_spectra_body, bind, emit, open_survey. cbn [fs]. by rewrite Heqb, Hfi.
Qed.

(** Without the output table a run ends with an exception right after the
    pool is started. *)
Lemma fit_spectra_no_table (arguments : Namespace) (w : world) :
  ~ has_table (outname arguments) w ->
  exists e w1,
    fit_spectra arguments w = (Raise e, close_store (outname arguments) w1) /\
    buf w1 = buf w /\
    forall path, path <> outname arguments -> fs w1 !! path = fs w !! path.
Proof.
  intros Hno. unfold fit_spectra, bind, open_append.
  destruct (fs w !! outname arguments) as [fo|] eqn:Hfo.
  - unfold fit_spectra_body, bind, emit, open_survey, open_gaussdec. cbn [fs].
    destruct (String.eqb (infile arguments) (outname arguments));
      [by eexists _, _|].
    destruct (fs w !! infile arguments) as [fi|];
      [destruct (survey fi) as [table|]|]; try (by eexists _, _).
    cbn [fs]. rewrite Hfo. destruct fo as [sv [t|]]; [|by eexists _, _].
    destruct Hno. by exists (mkFile sv (Some t)), t.
  - unfold fit_spectra_body, bind, emit, open_survey, open_gaussdec. cbn [fs].
    set (fs1 := <[outname arguments := mkFile None None]> (fs w)).
    assert (Hother : forall path, path <> outname arguments -> fs1 !! path = fs w !! path).
    { intros path Hne. unfold fs1. by rewrite lookup_insert_ne. }
    destruct (String.eqb (infile arguments) (outname arguments));
      [by eexists _, (mkWorld fs1 _ _)|].
    destruct (fs1 !! infile arguments) as [fi|];
      [destruct (survey fi) as [table|]|]; try (by eexists _, (mkWorld fs1 _ _)).
    cbn [fs]. unfold fs1 at 1. rewrite lookup_insert_eq. by eexists _, (mkWorld fs1 _ _).
Qed.

(** X5: A run only ever adds rows to the output table: the rows that were in
    the file or in the buffer are still there, in their places, and the
    run ends with the store closed and nothing left in the buffer. *)
Theorem fit_spectra_append_only (arguments : Namespace) (w : world) :
  has_table (outname arguments) w ->
  let w' := snd (fit_spectra arguments w) in
  (exists new, stored (outname arguments) w' = written (outname arguments) w ++ new) /\
  buf w' = [] /\
  exists trace, log w' = log w ++ EvPoolStart (infile arguments) :: trace ++ [EvClose].
Proof.
  intros Ht. cbv zeta.
  destruct (fit_spectra_cases arguments w Ht)
    as (r & w2 & new & trace & Hrun & (Hw & Ht2 & _) & Hlog).
  rewrite Hrun. cbn [snd]. split; [|split; [reflexivity|]].
  - exists new. by rewrite (written_close _ w2 Ht2), Hw.
  - exists trace. simpl. rewrite Hlog. by rewrite <- app_assoc.
Qed.

(** X6: A run changes no file but the output: the source file and every
    other HDF5 file on the disk are after it what they were before. *)
Theorem fit_spectra_touches_only_output (arguments : Namespace) (w : world)
    (path : string) :
  path <> outname arguments ->
  fs (snd (fit_spectra arguments w)) !! path = fs w !! path.
Proof.
  intros Hne.
  destruct (fs w !! outname arguments) as [[sv [t|]]|] eqn:Hfo.
  - assert (Ht : has_table (outname arguments) w)
      by (by exists (mkFile sv (Some t)), t).
    destruct (fit_spectra_cases arguments w Ht)
      as (r & w2 & new & trace & Hrun & (_ & _ & Hother) & _).
    rewrite Hrun. simpl. by rewrite flushed_other, Hother.
  - assert (Hno : ~ has_table (outname arguments) w).
    { intros (f & t & Hf & Hg). rewrite Hfo in Hf. by simplify_eq. }
    destruct (fit_spectra_no_table arguments w Hno) as (e & w1 & Hrun & _ & Hother).
    rewrite Hrun. simpl. by rewrite flushed_other, Hother.
  - assert (Hno : ~ has_table (outname arguments) w).
    { intros (f & t & Hf & Hg). rewrite Hfo in Hf. by simplify_eq. }
    destruct (fit_spectra_no_table arguments w Hno) as (e & w1 & Hrun & _ & Hother).
    rewrite Hrun. simpl. by rewrite flushed_other, Hother.
Qed.

Lemma index_of_flushed (out : string) (w w' : world) :
  fs w' = flushed out w -> index_of out w' = index_of out w.
Proof.
  intros Hfs. unfold index_of. rewrite Hfs. unfold flushed.
  rewrite lookup_alter_eq. destruct (fs w !! out) as [[sv [t|]]|]; reflexivity.
Qed.

Lemma for_results_index (out : string) (table : list SurveyRow)
    (p : fit_parameters) (work : list Z) (w : world) :
  index_of out (snd (for_results out table p work w)) = index_of out w.
Proof.
  revert w. induction work as [|i work IH]; intros w; [done|].
  cbn [for_results]. unfold bind. rewrite handle_result_eq. cbv zeta.
  destruct (snd (unit_outcome table p i)) as [[]|e]; [|done].
  destruct (i mod 1000 =? 0).
  - unfold flush. rewrite IH.
    by rewrite (index_of_flushed out
                  (mkWorld (fs w) (buf w ++ batch table p i) (log w))).
  - by rewrite IH.
Qed.

(** X7: A run keeps the index of the output table: the indexed columns and
    the [autoindex] flag are after it what they were before, however many
    rows were added. *)
Theorem fit_spectra_keeps_index (arguments : Namespace) (w : world) :
  has_table (outname arguments) w ->
  index_of (outname arguments) (snd (fit_spectra arguments w))
  = index_of (outname arguments) w.
Proof.
  intros Ht.
  assert (Hstop : forall r,
            fit_spectra arguments w
            = (r, close_store (outname arguments) (pool_started arguments w)) ->
            index_of (outname arguments) (snd (fit_spectra arguments w))
            = index_of (outname arguments) w).
  { intros r ->. cbn [snd].
    by rewrite (index_of_flushed _ (pool_started arguments w)). }
  destruct (decide (infile arguments = outname arguments)) as [Hsame|Hne].
  { apply (Hstop (Raise ValueError)). apply fit_spectra_same_file; [done|].
    destruct Ht as (f & t & Hf & _). by exists f. }
  assert (Heqb : String.eqb (infile arguments) (outname arguments) = false)
    by (by apply String.eqb_neq).
  destruct (fs w !! infile arguments) as [fi|] eqn:Hfi;
    [destruct (survey fi) as [table|] eqn:Hsv|].
  - assert (Hs : has_survey (infile arguments) w table) by (by exists fi).
    pose proof (fit_spectra_eq arguments w table Hne Hs Ht) as Heq. cbv zeta in Heq.
    destruct (parse_config (config arguments)) as [c|]; [|by eapply Hstop].
    destruct (c !! "fit_parameters"%string) as [p|]; [|by eapply Hstop].
    destruct (get_row_index _ _ table) as [work|e]; [|by eapply Hstop].
    pose proof (for_results_index (outname arguments) table p work
                  (pool_started arguments w)) as Hidx.
    destruct (for_results _ table p work _) as [r w2]. rewrite Heq. cbn [snd] in *.
    by rewrite (index_of_flushed _ w2), Hidx.
  - destruct Ht as (fo & t & Hfo & Hgd).
    apply (Hstop (Raise NoSuchNodeError)).
    unfold fit_spectra, bind, open_append. rewrite Hfo.
    unfold fit_spectra_body, bind, emit, open_survey. cbn [fs]. by rewrite Heqb, Hfi, Hsv.
  - destruct Ht as (fo & t & Hfo & Hgd).
    apply (Hstop (Raise (IOError "no such file"))).
    unfold fit_spectra, bind, open_append. rewrite Hfo.
    unfold fit_spectra_body, bind, emit, open_survey. cbn [fs]. by rewrite Heqb, Hfi.
Qed.

(** *** main *)

(** With the output file there and no clobber, [main] ends with the
    file-exists error before anything else happens: no pool is started,
    no file is opened or changed. *)
Theorem main_aborts_before_work (arguments : Namespace) (w : world) (f : h5file) :
  fs w !! outname arguments = Some f ->
  clobber arguments = false ->
  main arguments w = (Raise (IOError "File already exists"), w).
Proof.
  intros Hf Hc. unfold main, bind, create_tables, bind, isfile. by rewrite Hf, Hc.
Qed.

Lemma create_tables_ok (arguments : Namespace) (w : world) :
  clobber arguments = true \/ fs w !! outname arguments = None ->
  create_tables arguments w =
  (Ok 0, mkWorld (<[outname arguments := new_gaussdec_file]> (fs w)) (buf w) (log w)).
Proof.
  intros Hcase. unfold create_tables, bind, isfile, put_file, ret.
  assert (Hb : (match fs w !! outname arguments with Some _ => true | None => false end
                && negb (clobber arguments)) = false).
  { destruct Hcase as [-> | ->]; [apply andb_false_r|done]. }
  by rewrite Hb.
Qed.


(** X9: With the output path equal to the source path, on a free path or
    with clobber, [create_tables] puts the new file in the place of the
    source; the run then ends with the [ValueError] of opening for
    reading the file that is open for appending, and the survey is
    lost. *)
Theorem main_overwrites_source (arguments : Namespace) (w : world) :
  outname arguments = infile arguments ->
  clobber arguments = true \/ fs w !! outname arguments = None ->
  buf w = [] ->
  exists w',
    main arguments w = (Raise ValueError, w') /\
    fs w' !! infile arguments = Some new_gaussdec_file /\
    log w' = log w ++ [EvPoolStart (infile arguments); EvClose].
Proof.
  intros Hsame Hcase Hbuf.
  unfold main, bind. rewrite (create_tables_ok arguments w Hcase).
  rewrite fit_spectra_same_file; [|done|].
  - eexists. split; [reflexivity|]. split.
    + simpl. unfold flushed. simpl.
      rewrite Hbuf, <- Hsame, lookup_alter_eq, lookup_insert_eq. reflexivity.
    + simpl. by rewrite <- app_assoc.
  - simpl. by rewrite lookup_insert_eq.
Qed.

(** X10: The number of rows that a full scan adds, when no fitted
    [sigma_c] reads back as zero, is the number of whole triplets of all
    the fits together. *)
Theorem full_scan_row_count (arguments : Namespace) (w : world)
    (table : list SurveyRow) (c : gmap string fit_parameters) (p : fit_parameters) :
  infile arguments <> outname arguments ->
  has_survey (infile arguments) w table ->
  has_table (outname arguments) w ->
  parse_config (config arguments) = Some c ->
  c !! "fit_parameters"%string = Some p ->
  hpxindices arguments = None ->
  nsamples arguments < 0 ->
  (forall (i : nat) (row : SurveyRow), table !! i = Some row ->
     nonzero_sigmas (fit_spectrum row p)) ->
  fst (fit_spectra arguments w) = Ok 0 /\
  length (stored (outname arguments) (snd (fit_spectra arguments w)))
  = (length (written (outname arguments) w)
     + sum_list (map (fun row => length (fit_spectrum row p) / 3) table))%nat.
Proof.
  intros Hne Hsv Ht Hc Hp Hx Hn Hnz.
  pose proof (full_scan_work arguments table Hx Hn) as Hwork.
  destruct (fit_spectra_spec arguments w table c p _ Hne Hsv Ht Hc Hp Hwork)
    as (w' & Hrun & Hst & _).
  assert (Hall : Forall (completes table p) (range (length table))).
  { apply completes_range; [done|]. intros i row _. apply Hnz. }
  destruct (completes_all table p _ Hall) as (Hatt & _ & Hok).
  rewrite Hrun, Hok. cbn [fst snd]. split; [done|].
  rewrite Hst, Hatt, batches_of_range by done.
  rewrite length_app, length_concat. do 2 f_equal.
  apply list_eq. intros i. rewrite !list_lookup_fmap, list_lookup_imap.
  destruct (table !! i) as [row|]; [|done]. simpl.
  by rewrite length_map, length_seq.
Qed.

End MoreProperties.


(** ** Properties of the earlier script *)

Section ScriptProperties.

Import call_specfit.

Context {S : call_specfit.Collaborators}.

Lemma dict_of_acc_notin (pairs : list (Z * fit)) (d : gmap Z fit) (k : Z) :
  k ∉ map fst pairs ->
  foldl (fun d kv => <[fst kv := snd kv]> d) d pairs !! k = d !! k.
Proof.
  revert d. induction pairs as [|[k' v'] pairs IH]; intros d Hk; [done|].
  simpl in *. apply not_elem_of_cons in Hk as [Hne Hk].
  rewrite IH by done. by rewrite lookup_insert_ne.
Qed.

(** The last pair with a key decides what the dictionary holds for it. *)
Lemma dict_of_last (before after : list (Z * fit)) (k : Z) (v : fit) :
  k ∉ map fst after ->
  dict_of (before ++ (k, v) :: after) !! k = Some v.
Proof.
  intros Hk. unfold dict_of. rewrite foldl_app. simpl.
  rewrite dict_of_acc_notin by done. apply lookup_insert_eq.
Qed.

Lemma dict_of_notin (pairs : list (Z * fit)) (k : Z) :
  k ∉ map fst pairs -> dict_of pairs !! k = None.
Proof. intros Hk. unfold dict_of. by rewrite dict_of_acc_notin. Qed.

Lemma fit_spectra_app (l1 l2 : list SurveyRow) (p : gmap string pyvalue) :
  fit_spectra (l1 ++ l2) p = fit_spectra l1 p ++ fit_spectra l2 p.
Proof.
  induction l1 as [|row l1 IH]; [done|]. simpl.
  destruct (off_plane (HPXINDEX row)); simpl; by rewrite IH.
Qed.

Lemma fit_spectra_keys (hpxfile : list SurveyRow) (p : gmap string pyvalue) (k : Z) :
  k ∈ map fst (fit_spectra hpxfile p) <->
  off_plane k = true /\ exists row, row ∈ hpxfile /\ HPXINDEX row = k.
Proof.
  induction hpxfile as [|row hpxfile IH]; simpl.
  - split; [by intros ?%elem_of_nil|]. by intros [_ (row & ?%elem_of_nil & _)].
  - destruct (off_plane (HPXINDEX row)) eqn:Hoff; simpl.
    + rewrite elem_of_cons, IH. split.
      * intros [-> | [Hk (r & Hr & Hrk)]].
        -- split; [done|]. exists row. split; [apply list_elem_of_here|done].
        -- split; [done|]. exists r. split; [by apply list_elem_of_further|done].
      * intros [Hk (r & Hr & Hrk)]. apply elem_of_cons in Hr as [-> | Hr].
        -- by left.
        -- right. split; [done|]. by exists r.
    + rewrite IH. split.
      * intros [Hk (r & Hr & Hrk)]. split; [done|].
        exists r. split; [by apply list_elem_of_further|done].
      * intros [Hk (r & Hr & Hrk)]. split; [done|].
        apply elem_of_cons in Hr as [-> | Hr]; [congruence|]. by exists r.
Qed.

(** X11: When [fit_file] fits a file, the dictionary it writes has a key for
    exactly the pixels of the file that are more than 15 degrees off the
    plane, and holds for each the fit of the last row with that pixel;
    no other file is changed. *)
Theorem fit_file_results (filename : string) (p : gmap string pyvalue)
    (files : gmap string (gmap Z fit)) (hpxfile : list SurveyRow) :
  skip_test files (outname_of filename) p = Ok false ->
  getdata filename = Some hpxfile ->
  exists results,
    fit_file (filename, p) files = (Ok tt, <[outname_of filename := results]> files) /\
    (forall k, is_Some (results !! k) <->
               off_plane k = true /\ exists row, row ∈ hpxfile /\ HPXINDEX row = k) /\
    (forall before row after,
       hpxfile = before ++ row :: after ->
       off_plane (HPXINDEX row) = true ->
       Forall (fun later => HPXINDEX later <> HPXINDEX row) after ->
       results !! HPXINDEX row = Some (fit_spectrum (DATA row) p)).
Proof.
  intros Hskip Hdata. exists (dict_of (fit_spectra hpxfile p)).
  split; [|split].
  - unfold fit_file. by rewrite Hskip, Hdata.
  - intros k. rewrite <- fit_spectra_keys. split.
    + intros Hsome. destruct (decide (k ∈ map fst (fit_spectra hpxfile p))); [done|].
      rewrite dict_of_notin in Hsome by done. by destruct Hsome.
    + intros Hk. apply list_elem_of_fmap in Hk as ([k' v] & -> & Hin).
      apply list_elem_of_split in Hin as (l1 & l2 & Hsplit).
      assert (Hlast : forall l2 l1, exists v', dict_of (l1 ++ (k', v) :: l2) !! k' = Some v').
      { clear. intros l2. induction l2 as [|[k2 v2] l2 IH] using rev_ind; intros l1.
        - exists v. by apply dict_of_last, not_elem_of_nil.
        - unfold dict_of. rewrite app_comm_cons, app_assoc, foldl_app. simpl.
          destruct (decide (k2 = k')) as [->|Hne].
          + exists v2. apply lookup_insert_eq.
          + rewrite lookup_insert_ne by done. apply IH. }
      rewrite Hsplit. simpl. destruct (Hlast l2 l1) as [v' Hv']. by exists v'.
  - intros before row after -> Hoff Hafter.
    rewrite fit_spectra_app. simpl. rewrite Hoff.
    apply dict_of_last. intros Hin. apply fit_spectra_keys in Hin as [_ (r & Hr & Hrk)].
    rewrite Forall_forall in Hafter. by apply (Hafter r Hr).
Qed.

(** X12: The key [clobber] is looked up only when the output file is there:
    without the key, a file whose output is missing is fitted, and one
    whose output is there ends with [KeyError] and no file changed. *)
Theorem fit_file_clobber_lookup (filename : string) (p : gmap string pyvalue)
    (files : gmap string (gmap Z fit)) (hpxfile : list SurveyRow) :
  p !! "clobber"%string = None ->
  getdata filename = Some hpxfile ->
  (files !! outname_of filename = None ->
   fit_file (filename, p) files =
   (Ok tt, <[outname_of filename := dict_of (fit_spectra hpxfile p)]> files)) /\
  (forall d, files !! outname_of filename = Some d ->
   fit_file (filename, p) files = (Raise KeyError, files)).
Proof.
  intros Hp Hdata. split.
  - intros Hout. unfold fit_file, skip_test. by rewrite Hout, Hdata.
  - intros d Hout. unfold fit_file, skip_test. by rewrite Hout, Hp.
Qed.

(** X13: The script never changes a file that is there: every task that
    [gen_file_fit] yields has [clobber] set to [False], so [fit_file]
    passes over a file whose output exists, and never ends with
    [KeyError]. *)
Theorem script_never_overwrites (task : string * gmap string pyvalue)
    (files : gmap string (gmap Z fit)) (path : string) (d : gmap Z fit) :
  task ∈ gen_file_fit ->
  files !! path = Some d ->
  snd (fit_file task files) !! path = Some d /\
  fst (fit_file task files) <> Raise KeyError.
Proof.
  intros Htask Hpath. unfold gen_file_fit in Htask.
  apply list_elem_of_fmap in Htask as (filename & -> & _).
  unfold fit_file, skip_test. rewrite lookup_insert_eq. simpl.
  destruct (files !! outname_of filename) as [d'|] eqn:Hout; [done|].
  destruct (getdata filename) as [hpxfile|]; simpl; [|done].
  split; [|done]. rewrite lookup_insert_ne; [done|]. congruence.
Qed.

(** X14: Running a task of the script again changes nothing: once the output
    of a file is written, [fit_file] passes over the file. *)
Theorem script_rerun_is_skipped (task : string * gmap string pyvalue)
    (files files' : gmap string (gmap Z fit)) :
  task ∈ gen_file_fit ->
  fit_file task files = (Ok tt, files') ->
  fit_file task files' = (Ok tt, files').
Proof.
  intros Htask Hrun. unfold gen_file_fit in Htask.
  apply list_elem_of_fmap in Htask as (filename & -> & _).
  unfold fit_file, skip_test in *. rewrite lookup_insert_eq in *. simpl in *.
  destruct (files !! outname_of filename) as [d'|] eqn:Hout.
  - injection Hrun as <-. by rewrite Hout.
  - destruct (getdata filename) as [hpxfile|]; [|done].
    injection Hrun as <-. by rewrite lookup_insert_eq.
Qed.

End ScriptProperties.

(** ** Properties of the inspection helpers *)

Section InspectProperties.

Import inspect_gaussdec.

Lemma npix_value : nside2npix (2 ^ 10) = 12582912.
Proof. reflexivity. Qed.

Lemma array_index_in_range (n : nat) (k : Z) :
  - Z.of_nat n <= k < Z.of_nat n ->
  array_index n k = Ok (Z.to_nat (if k <? 0 then k + Z.of_nat n else k)).
Proof.
  intros Hk. unfold array_index.
  destruct (Z.ltb_spec k (- Z.of_nat n)); [lia|].
  by destruct (Z.leb_spec (Z.of_nat n) k); [lia|].
Qed.

Lemma array_index_out_of_range (n : nat) (k : Z) :
  ~ (- Z.of_nat n <= k < Z.of_nat n) -> array_index n k = Raise IndexError.
Proof.
  intros Hk. unfold array_index.
  destruct (Z.ltb_spec k (- Z.of_nat n)); [done|].
  by destruct (Z.leb_spec (Z.of_nat n) k); [|lia].
Qed.

(** The loop over the rows, when every pixel identifier is an index of
    the array: each cell ends with what the rows that land on it made of
    its first value, taken in the order of the table. *)
Lemma for_rows_spec {A : Type} (f : GaussDec -> A -> A) (table : list GaussDec)
    (arr : list A) :
  Forall (fun row => - Z.of_nat (length arr) <= hpxindex row < Z.of_nat (length arr))
         table ->
  exists arr',
    for_rows f table arr = Ok arr' /\
    length arr' = length arr /\
    forall (q : nat) (x : A), arr !! q = Some x ->
      arr' !! q = Some (foldl (fun a row => f row a) x
                          (filter (fun row => hpxindex row = Z.of_nat q \/
                                              hpxindex row = Z.of_nat q - Z.of_nat (length arr))
                                  table)).
Proof.
  revert arr. induction table as [|row table IH]; intros arr Hr.
  - exists arr. by repeat split.
  - apply Forall_cons in Hr as [Hrow Hr]. cbn [for_rows]. unfold array_update.
    rewrite (array_index_in_range _ _ Hrow).
    set (i := Z.to_nat (if hpxindex row <? 0
                        then hpxindex row + Z.of_nat (length arr) else hpxindex row)).
    assert (Hlen : length (alter (f row) i arr) = length arr) by apply length_alter.
    destruct (IH (alter (f row) i arr)) as (arr' & Hrun & Hlen' & Hcells).
    { by rewrite Hlen. }
    exists arr'. split; [done|]. split; [congruence|].
    intros q x Hq. pose proof (lookup_lt_Some _ _ _ Hq) as Hlt.
    rewrite Hlen in Hcells.
    destruct (decide (hpxindex row = Z.of_nat q \/
                      hpxindex row = Z.of_nat q - Z.of_nat (length arr))) as [Hhit|Hmiss].
    + rewrite filter_cons_True by done. simpl. apply Hcells.
      assert (Hi : i = q).
      { unfold i. destruct (Z.ltb_spec (hpxindex row) 0); lia. }
      by rewrite Hi, list_lookup_alter_eq, Hq.
    + rewrite filter_cons_False by done. apply Hcells.
      assert (Hi : i <> q).
      { unfold i. destruct (Z.ltb_spec (hpxindex row) 0); lia. }
      by rewrite list_lookup_alter_ne.
Qed.

(** The loop fails as soon as a pixel identifier is no index of the
    array. *)
Lemma for_rows_raise {A : Type} (f : GaussDec -> A -> A) (table : list GaussDec)
    (arr : list A) :
  Exists (fun row => ~ (- Z.of_nat (length arr) <= hpxindex row < Z.of_nat (length arr)))
         table ->
  for_rows f table arr = Raise IndexError.
Proof.
  revert arr. induction table as [|row table IH]; intros arr Hex.
  - by apply Exists_nil in Hex.
  - cbn [for_rows]. unfold array_update.
    destruct (decide (- Z.of_nat (length arr) <= hpxindex row < Z.of_nat (length arr)))
      as [Hin|Hout].
    + rewrite (array_index_in_range _ _ Hin). apply IH.
      apply Exists_cons in Hex as [Hex|Hex]; [done|]. by rewrite length_alter.
    + by rewrite (array_index_out_of_range _ _ Hout).
Qed.

Lemma foldl_count (l : list GaussDec) (x : nat) :
  foldl (fun n _ => (n + 1)%nat) x l = (x + length l)%nat.
Proof. revert x. induction l as [|row l IH]; intros x; simpl; [lia|]. rewrite IH. lia. Qed.

Lemma foldl_sum (l : list GaussDec) (x : R) :
  foldl (fun a row => (a + amplitude row)%R) x l
  = (x + foldr Rplus 0 (map amplitude l))%R.
Proof.
  revert x. induction l as [|row l IH]; intros x; simpl; [lra|]. rewrite IH. lra.
Qed.

Lemma maps_ok (table : list GaussDec) :
  Forall (fun row => - 12582912 <= hpxindex row < 12582912) table ->
  (exists ncomps, make_ncomp_map table = Ok ncomps) /\
  (exists hi_model, reconstruct_coldens table = Ok hi_model).
Proof.
  intros Hr.
  set (n := Z.to_nat (nside2npix (2 ^ 10))).
  assert (Hn : Z.of_nat n = 12582912) by (unfold n; by rewrite Z2Nat.id).
  split.
  - destruct (for_rows_spec (fun _ m => (m + 1)%nat) table (replicate n 0%nat))
      as (ncomps & Hrun & _); [by rewrite length_replicate, Hn|].
    by exists ncomps.
  - destruct (for_rows_spec (fun row x => (x + amplitude row)%R) table (replicate n 0%R))
      as (hi & Hrun & _); [by rewrite length_replicate, Hn|].
    unfold reconstruct_coldens. fold n. rewrite Hrun. by eexists.
Qed.

(** X15: [make_ncomp_map] counts, for every pixel, the rows of the table with
    that pixel identifier (or, numpy taking a negative index from the
    end, with that identifier less [npix]); the map has one cell for each
    of the 12582912 pixels. *)
Theorem make_ncomp_map_counts (table : list GaussDec) :
  Forall (fun row => - 12582912 <= hpxindex row < 12582912) table ->
  exists ncomps,
    make_ncomp_map table = Ok ncomps /\
    Z.of_nat (length ncomps) = 12582912 /\
    forall q : Z, 0 <= q < 12582912 ->
      ncomps !! Z.to_nat q =
      Some (length (filter (fun row => hpxindex row = q \/ hpxindex row = q - 12582912)
                           table)).
Proof.
  intros Hr. unfold make_ncomp_map.
  set (n := Z.to_nat (nside2npix (2 ^ 10))).
  assert (Hn : Z.of_nat n = 12582912) by (unfold n; by rewrite Z2Nat.id).
  destruct (for_rows_spec (fun _ m => (m + 1)%nat) table (replicate n 0%nat))
    as (ncomps & Hrun & Hlen & Hcells).
  { rewrite length_replicate, Hn. done. }
  rewrite length_replicate in Hlen, Hcells. rewrite Hn in Hcells.
  exists ncomps. split; [done|]. split; [by rewrite Hlen|].
  intros q Hq. rewrite (Hcells (Z.to_nat q) 0%nat).
  - rewrite foldl_count, Z2Nat.id by lia. reflexivity.
  - apply lookup_replicate_2. lia.
Qed.

(** X16: [reconstruct_coldens] gives for every pixel the sum of the amplitudes
    of its rows, times the conversion factor. *)
Theorem reconstruct_coldens_sums (table : list GaussDec) :
  Forall (fun row => - 12582912 <= hpxindex row < 12582912) table ->
  exists hi_model,
    reconstruct_coldens table = Ok hi_model /\
    Z.of_nat (length hi_model) = 12582912 /\
    forall q : Z, 0 <= q < 12582912 ->
      let rows_of_q :=
        filter (fun row => hpxindex row = q \/ hpxindex row = q - 12582912) table in
      hi_model !! Z.to_nat q =
      Some (foldr Rplus 0 (map amplitude rows_of_q) * (1.82e18 * 1.288))%R.
Proof.
  intros Hr. unfold reconstruct_coldens.
  set (n := Z.to_nat (nside2npix (2 ^ 10))).
  assert (Hn : Z.of_nat n = 12582912) by (unfold n; by rewrite Z2Nat.id).
  destruct (for_rows_spec (fun row x => (x + amplitude row)%R) table (replicate n 0%R))
    as (hi & Hrun & Hlen & Hcells).
  { rewrite length_replicate, Hn. done. }
  rewrite length_replicate in Hlen, Hcells. rewrite Hn in Hcells.
  rewrite Hrun. eexists. split; [reflexivity|]. split.
  { by rewrite length_map, Hlen. }
  intros q Hq. rewrite list_lookup_fmap, (Hcells (Z.to_nat q) 0%R).
  - rewrite foldl_sum, Z2Nat.id by lia. simpl. f_equal. lra.
  - apply lookup_replicate_2. lia.
Qed.

(** X17: Both maps fail with [IndexError] exactly when the table has a pixel
    identifier outside [-npix, npix). *)
Theorem maps_fail_out_of_range (table : list GaussDec) :
  (make_ncomp_map table = Raise IndexError <->
   Exists (fun row => ~ (- 12582912 <= hpxindex row < 12582912)) table) /\
  (reconstruct_coldens table = Raise IndexError <->
   Exists (fun row => ~ (- 12582912 <= hpxindex row < 12582912)) table).
Proof.
  set (n := Z.to_nat (nside2npix (2 ^ 10))).
  assert (Hn : Z.of_nat n = 12582912) by (unfold n; by rewrite Z2Nat.id).
  assert (Hcases :
    Forall (fun row => - 12582912 <= hpxindex row < 12582912) table \/
    Exists (fun row => ~ (- 12582912 <= hpxindex row < 12582912)) table).
  { induction table as [|row table [IH|IH]].
    - left. constructor.
    - destruct (decide (- 12582912 <= hpxindex row < 12582912)) as [Hin|Hout].
      + left. by constructor.
      + right. by apply Exists_cons_hd.
    - right. by apply Exists_cons_tl. }
  split; (split; [intros Hraise|intros Hex]).
  - destruct Hcases as [Hall|Hex]; [|done].
    destruct (proj1 (maps_ok table Hall)) as [ncomps Hok]. congruence.
  - unfold make_ncomp_map. fold n. apply for_rows_raise.
    by rewrite length_replicate, Hn.
  - destruct Hcases as [Hall|Hex]; [|done].
    destruct (proj2 (maps_ok table Hall)) as [hi Hok]. congruence.
  - unfold reconstruct_coldens. fold n. rewrite for_rows_raise; [done|].
    by rewrite length_replicate, Hn.
Qed.


End InspectProperties.

(** ** From the pipeline to the component map *)

Section Composition.

Import inspect_gaussdec.

Context {C : Collaborators}.

Lemma filter_all {A : Type} (P : A -> Prop) `{forall x, Decision (P x)} (l : list A) :
  Forall P l -> filter P l = l.
Proof.
  induction 1 as [|x l Hx _ IH]; [done|]. by rewrite filter_cons_True, IH.
Qed.

Lemma filter_none {A : Type} (P : A -> Prop) `{forall x, Decision (P x)} (l : list A) :
  Forall (fun x => ~ P x) l -> filter P l = [].
Proof.
  induction 1 as [|x l Hx _ IH]; [done|]. by rewrite filter_cons_False, IH.
Qed.

(** Among batches that carry their position as pixel identifier, the
    rows of a pixel are the batch at that position. *)
Lemma length_filter_batches (g : nat -> list GaussDec) (N : Z) (q start len : nat) :
  (forall j, Forall (fun e => hpxindex e = Z.of_nat j) (g j)) ->
  Z.of_nat q < N ->
  length (filter (fun e => hpxindex e = Z.of_nat q \/ hpxindex e = Z.of_nat q - N)
                 (concat (map g (seq start len))))
  = if decide (start <= q < start + len)%nat then length (g q) else 0%nat.
Proof.
  intros Hg Hq. revert start. induction len as [|len IH]; intros start.
  - simpl. by destruct (decide _); [lia|].
  - cbn [seq map concat]. rewrite filter_app, length_app, IH.
    destruct (decide (start = q)) as [Heq|Hne].
    + subst start. rewrite filter_all.
      * repeat case_decide; lia.
      * eapply Forall_impl; [apply Hg|]. intros e He. by left.
    + rewrite filter_none.
      * simpl. repeat case_decide; lia.
      * eapply Forall_impl; [apply Hg|]. intros e He. simpl in He. lia.
Qed.

(** X19: [make_ncomp_map] of the table that a full scan wrote from
    scratch, when no fitted [sigma_c] reads back as zero, gives, for the
    pixel of every source row, the number of components of the fit of
    that row. *)
Theorem ncomp_map_of_full_scan (arguments : Namespace) (w : world)
    (table : list SurveyRow) (c : gmap string fit_parameters) (p : fit_parameters) :
  infile arguments <> outname arguments ->
  has_survey (infile arguments) w table ->
  has_table (outname arguments) w ->
  written (outname arguments) w = [] ->
  parse_config (config arguments) = Some c ->
  c !! "fit_parameters"%string = Some p ->
  hpxindices arguments = None ->
  nsamples arguments < 0 ->
  Z.of_nat (length table) <= 12582912 ->
  (forall (i : nat) (row : SurveyRow), table !! i = Some row ->
     nonzero_sigmas (fit_spectrum row p)) ->
  fst (fit_spectra arguments w) = Ok 0 /\
  exists ncomps,
    make_ncomp_map (stored (outname arguments) (snd (fit_spectra arguments w)))
      = Ok ncomps /\
    forall (i : nat) (row : SurveyRow), table !! i = Some row ->
      ncomps !! i = Some (length (fit_spectrum row p) / 3)%nat.
Proof.
  intros Hne Hsv Ht Hfresh Hc Hp Hx Hn Hsize Hnz.
  pose proof (full_scan_work arguments table Hx Hn) as Hwork.
  destruct (fit_spectra_spec arguments w table c p _ Hne Hsv Ht Hc Hp Hwork)
    as (w' & Hrun & Hst & _).
  assert (Hall : Forall (completes table p) (range (length table))).
  { apply completes_range; [done|]. intros i row _. apply Hnz. }
  destruct (completes_all table p _ Hall) as (Hatt & _ & Hok).
  rewrite Hrun, Hok. cbn [fst snd]. split; [done|].
  rewrite Hst, Hfresh, Hatt. cbn [app].
  set (g := fun j : nat => batch table p (Z.of_nat j)).
  assert (Hmap : map (batch table p) (range (length table))
                 = map g (seq 0 (length table))).
  { unfold range. by rewrite map_map. }
  rewrite Hmap.
  assert (Hg : forall j, Forall (fun e => hpxindex e = Z.of_nat j) (g j)).
  { intros j. unfold g. eapply Forall_impl; [apply batch_coordinates|].
    by intros e (He & _). }
  unfold make_ncomp_map.
  set (n := Z.to_nat (nside2npix (2 ^ 10))).
  assert (HnZ : Z.of_nat n = 12582912) by (unfold n; by rewrite Z2Nat.id).
  destruct (for_rows_spec (fun _ m => (m + 1)%nat)
              (concat (map g (seq 0 (length table)))) (replicate n 0%nat))
    as (ncomps & Hrun' & Hlen & Hcells).
  { rewrite length_replicate, HnZ. apply Forall_concat, Forall_map, Forall_forall.
    intros j Hj%elem_of_seq. simpl. eapply Forall_impl; [apply Hg|].
    intros e He. simpl in He. lia. }
  exists ncomps. split; [done|].
  intros i row Hrow. pose proof (lookup_lt_Some _ _ _ Hrow) as Hi.
  rewrite (Hcells i 0%nat) by (apply lookup_replicate_2; lia).
  rewrite foldl_count, length_replicate, HnZ. f_equal. simpl.
  rewrite (length_filter_batches g 12582912 i 0 (length table) Hg) by lia.
  destruct (decide (0 <= i < 0 + length table)%nat); [|lia].
  unfold g, batch. rewrite (unit_outcome_position table p i row Hrow).
  rewrite entries_whole by (by apply (Hnz i row)). cbn [fst].
  by rewrite length_map, length_seq.
Qed.

End Composition.


(** ** The example, run *)

Section Checks.

Import Example.

#[local] Existing Instance stub.

Lemma main_ready (arguments : Namespace) (w : world) :
  create_tables arguments w = (Ok 0, snd (create_tables arguments w)) ->
  main arguments w = fit_spectra arguments (snd (create_tables arguments w)).
Proof. intros Hc. unfold main, bind. by rewrite Hc. Qed.

(** No fit of the table of the example has a component of zero width. *)
Lemma table_nonzero (i : nat) (row : SurveyRow) :
  table !! i = Some row -> nonzero_sigmas (fit_spectrum row tt).
Proof.
  intros Hrow. destruct i as [|[|[|i]]]; simpl in Hrow; [..|done];
    injection Hrow as <-; each_sigma.
Qed.

(** The second fit of the degenerate table has a second component of
    zero width. *)
Lemma degenerate_first_zero :
  first_zero_sigma (fit_spectrum (mkSurveyRow 50 []) tt) 1.
Proof.
  split; [vm_compute; lia|]. split; [unfold stored_sigma; cbn; lra|].
  intros j Hj. destruct j as [|j]; [unfold stored_sigma; cbn; lra|lia].
Qed.

Lemma table_completes : Forall (completes table tt) [0; 1; 2].
Proof.
  apply (completes_range (C := stub) table tt 3); [simpl; lia|].
  intros i row _. apply table_nonzero.
Qed.

(** The run of the full scan on the example. *)
Lemma full_scan_run :
  exists w',
    main full_scan disk = (Ok 0, w') /\
    stored "gdec.h5" w' =
      [record_of 0 [5; 100; 2]%R 0;
       record_of 2 [3; 50; 1; 4; 150; 1.5]%R 0;
       record_of 2 [3; 50; 1; 4; 150; 1.5]%R 1].
Proof.
  destruct (fit_spectra_spec (C := stub) full_scan ready table fit_cfg tt [0; 1; 2])
    as (w' & Hrun & Hst & _);
    [discriminate|example_survey table|example_table|reflexivity..|].
  destruct (completes_all (C := stub) table tt _ table_completes) as (Hatt & _ & Hok).
  rewrite Hok in Hrun. rewrite Hatt in Hst.
  unfold full_scan, args in Hst. cbn [outname] in Hst.
  exists w'. split.
  - rewrite main_ready by reflexivity. exact Hrun.
  - rewrite Hst. rewrite (batches_of_range (C := stub) table tt table_nonzero
                    : map (batch (C := stub) table tt) [0; 1; 2] = _).
    reflexivity.
Qed.

(** C1, refuted as stated: on the table with pixel identifiers 10, 20,
    30 the full scan writes records with [hpxindex] 0, 2 and 2, the
    positions of the rows, not 10, 30 and 30. *)
Lemma hpxindex_not_read_from_row :
  map HPXINDEX table = [10; 20; 30] /\
  fst (main full_scan disk) = Ok 0 /\
  map hpxindex (stored "gdec.h5" (snd (main full_scan disk))) = [0; 2; 2] /\
  map hpxindex (stored "gdec.h5" (snd (main full_scan disk))) <> [10; 30; 30].
Proof.
  destruct full_scan_run as (w' & -> & Hst). cbn [fst snd]. rewrite Hst.
  split; [reflexivity|]. split; [reflexivity|]. split; [reflexivity|]. discriminate.
Qed.

Lemma full_scan_hpxindex_witness :
  let work := range (length table) in
  exists w',
    fit_spectra full_scan ready =
      (match loop_result table tt work with Ok _ => Ok 0 | Raise e => Raise e end, w') /\
    stored "gdec.h5" w' =
      written "gdec.h5" ready ++ concat (map (batch table tt) (attempted table tt work)) /\
    (forall (i : nat) (row : SurveyRow), table !! i = Some row ->
       batch table tt (Z.of_nat i) = fst (entries (Z.of_nat i) (fit_spectrum row tt)) /\
       Forall (fun e => hpxindex e = Z.of_nat i) (batch table tt (Z.of_nat i))) /\
    ((forall (i : nat) (row : SurveyRow), table !! i = Some row ->
        nonzero_sigmas (fit_spectrum row tt)) ->
     fit_spectra full_scan ready = (Ok 0, w') /\
     stored "gdec.h5" w' =
       written "gdec.h5" ready ++
       concat (imap (fun i row => map (record_of (Z.of_nat i) (fit_spectrum row tt))
                                      (seq 0 (length (fit_spectrum row tt) / 3)))
                    table)).
Proof.
  apply (full_scan_hpxindex (C := stub) full_scan ready table fit_cfg tt).
  - discriminate.
  - example_survey table.
  - example_table.
  - reflexivity.
  - reflexivity.
  - reflexivity.
  - simpl. lia.
Defined.

(** C2 at its failing input: the fit of the second row of the
    degenerate table has [3 * 2] values, and its turn of the loop appends
    one record, not two, and raises [ZeroDivisionError]. *)
Lemma zero_width_cuts_the_unit :
  let turn := handle_result "gdec.h5" degenerate_table tt 1 degenerate_ready in
  fit_spectrum (mkSurveyRow 50 []) tt = [5; 100; 2; 1; 50; 0]%R /\
  length (fit_spectrum (mkSurveyRow 50 []) tt) = (3 * 2)%nat /\
  fst turn = Raise ZeroDivisionError /\
  written "gdec.h5" (snd turn) = [record_of 1 [5; 100; 2; 1; 50; 0]%R 0].
Proof.
  cbv zeta. rewrite handle_result_eq. cbv zeta.
  destruct (batch_partial (C := stub) degenerate_table tt 1 (mkSurveyRow 50 []) 1 eq_refl
              degenerate_first_zero) as [Hb ->].
  rewrite Hb. split; [reflexivity|]. split; [reflexivity|]. split; reflexivity.
Qed.

Lemma normalizer_cardinality_witness :
  (exists w' es,
     handle_result "gdec.h5" table tt 2 ready = (Ok tt, w') /\
     written "gdec.h5" w' = written "gdec.h5" ready ++ es /\
     length es = 2%nat /\
     Forall (fun e => hpxindex e = 2 /\ glon e = f32 (glon_of 2) /\
                      glat e = f32 (glat_of 2)) es /\
     (2%nat = 0%nat -> written "gdec.h5" w' = written "gdec.h5" ready)) /\
  (exists w' es,
     handle_result "gdec.h5" degenerate_table tt 1 degenerate_ready
       = (Raise ZeroDivisionError, w') /\
     written "gdec.h5" w' = written "gdec.h5" degenerate_ready ++ es /\
     length es = 1%nat /\ (1 < 2)%nat /\
     Forall (fun e => hpxindex e = 1 /\ glon e = f32 (glon_of 1) /\
                      glat e = f32 (glat_of 1)) es).
Proof.
  split.
  - destruct (normalizer_cardinality (C := stub) "gdec.h5" table tt 2 (mkSurveyRow 30 []) 2
                ready) as [Hwhole _];
      [example_table|reflexivity|reflexivity|].
    apply Hwhole. apply (table_nonzero 2). reflexivity.
  - destruct (normalizer_cardinality (C := stub) "gdec.h5" degenerate_table tt 1
                (mkSurveyRow 50 []) 2 degenerate_ready) as [_ Hcut];
      [example_table|reflexivity|reflexivity|].
    apply (Hcut 1%nat). apply degenerate_first_zero.
Defined.

(** The fit of the odd table has a first component of zero width. *)
Lemma odd_first_zero : first_zero_sigma [6; 60; 0]%R 0.
Proof.
  split; [vm_compute; lia|]. split; [unfold stored_sigma; cbn; lra|].
  intros j Hj. lia.
Qed.

(** C10 at its failing input: the fit of the odd table has five values,
    the third of them zero; its turn of the loop raises
    [ZeroDivisionError] and appends nothing. *)
Lemma odd_length_unit_raises :
  let turn := handle_result "gdec.h5" odd_table tt 0 ready in
  fit_spectrum (mkSurveyRow 70 []) tt = [6; 60; 0; 7; 70]%R /\
  (length (fit_spectrum (mkSurveyRow 70 []) tt) mod 3 = 2)%nat /\
  (length (fit_spectrum (mkSurveyRow 70 []) tt) / 3 = 1)%nat /\
  fst turn = Raise ZeroDivisionError /\
  written "gdec.h5" (snd turn) = [].
Proof.
  cbv zeta. rewrite handle_result_eq. cbv zeta.
  assert (Hz : first_zero_sigma (fit_spectrum (mkSurveyRow 70 []) tt) 0).
  { split; [vm_compute; lia|]. split; [unfold stored_sigma; cbn; lra|].
    intros j Hj. lia. }
  destruct (batch_partial (C := stub) odd_table tt 0 (mkSurveyRow 70 []) 0 eq_refl Hz)
    as [Hb ->].
  rewrite Hb. split; [reflexivity|]. split; [reflexivity|]. split; [reflexivity|].
  split; reflexivity.
Qed.

Lemma normalizer_truncates_witness :
  (length [7; 70]%R = (length (fit_spectrum (mkSurveyRow 40 []) tt) mod 3)%nat /\
   exists w',
     handle_result "gdec.h5" longer_table tt 3 ready = (Ok tt, w') /\
     written "gdec.h5" w'
     = written "gdec.h5" ready
       ++ map (record_of 3 [6; 60; 3]%R)
              (seq 0 (length (fit_spectrum (mkSurveyRow 40 []) tt) / 3))) /\
  (length [7; 70]%R = (length (fit_spectrum (mkSurveyRow 70 []) tt) mod 3)%nat /\
   exists w',
     handle_result "gdec.h5" odd_table tt 0 ready = (Raise ZeroDivisionError, w') /\
     (0 < length (fit_spectrum (mkSurveyRow 70 []) tt) / 3)%nat /\
     written "gdec.h5" w'
     = written "gdec.h5" ready ++ map (record_of 0 [6; 60; 0]%R) (seq 0 0)).
Proof.
  split.
  - destruct (normalizer_truncates (C := stub) "gdec.h5" longer_table tt 3
                (mkSurveyRow 40 []) [6; 60; 3]%R [7; 70]%R ready) as (Hmod & Hwhole & _);
      [example_table|reflexivity|reflexivity|reflexivity|simpl; lia|].
    split; [exact Hmod|]. apply Hwhole. each_sigma.
  - destruct (normalizer_truncates (C := stub) "gdec.h5" odd_table tt 0
                (mkSurveyRow 70 []) [6; 60; 0]%R [7; 70]%R ready) as (Hmod & _ & Hcut);
      [example_table|reflexivity|reflexivity|reflexivity|simpl; lia|].
    split; [exact Hmod|]. apply (Hcut 0%nat). apply odd_first_zero.
Defined.

(** The run of the full scan on the degenerate table. *)
Lemma degenerate_run :
  exists w',
    main full_scan degenerate_disk = (Raise ZeroDivisionError, w') /\
    stored "gdec.h5" w' =
      [record_of 0 [5; 100; 2]%R 0; record_of 1 [5; 100; 2; 1; 50; 0]%R 0].
Proof.
  destruct (fit_spectra_spec (C := stub) full_scan degenerate_ready degenerate_table
              fit_cfg tt [0; 1; 2])
    as (w' & Hrun & Hst & _);
    [discriminate|example_survey degenerate_table|example_table|reflexivity..|].
  destruct (batch_whole (C := stub) degenerate_table tt 0 (mkSurveyRow 10 []) eq_refl
              (table_nonzero 0 _ eq_refl)) as [Hb0 Hc0].
  destruct (batch_partial (C := stub) degenerate_table tt 1 (mkSurveyRow 50 []) 1 eq_refl
              degenerate_first_zero) as [Hb1 Hc1].
  destruct (attempted_until (C := stub) degenerate_table tt [0] [2] 1 ZeroDivisionError)
    as (Hatt & _ & Hres); [by repeat constructor|done|].
  cbn [app] in Hatt, Hres. rewrite Hres in Hrun. rewrite Hatt in Hst.
  unfold full_scan, args in Hst. cbn [outname] in Hst.
  exists w'. split.
  - rewrite main_ready by reflexivity. exact Hrun.
  - rewrite Hst. cbn [map concat]. rewrite Hb0, Hb1. reflexivity.
Qed.

(** C9 at its failing input: the full scan of the degenerate table ends
    with [ZeroDivisionError] in the middle of its second work unit, whose
    fit has two components; the table it leaves holds the first of the
    two records of that unit and not the second. *)
Lemma partial_unit_persisted :
  let w' := snd (main full_scan degenerate_disk) in
  (length (fit_spectrum (mkSurveyRow 50 []) tt) / 3 = 2)%nat /\
  fst (main full_scan degenerate_disk) = Raise ZeroDivisionError /\
  map hpxindex (stored "gdec.h5" w') = [0; 1] /\
  length (filter (fun e => hpxindex e = 1) (stored "gdec.h5" w')) = 1%nat.
Proof.
  destruct degenerate_run as (w' & -> & Hst). cbn [fst snd]. rewrite Hst.
  split; [reflexivity|]. split; [reflexivity|]. split; reflexivity.
Qed.

Lemma batches_contiguous_witness :
  let w' := snd (fit_spectra full_scan degenerate_ready) in
  stored "gdec.h5" w' =
    written "gdec.h5" degenerate_ready
    ++ concat (map (batch degenerate_table tt) (attempted degenerate_table tt [0; 1; 2])) /\
  (forall (before after : list Z) (unit : Z),
    attempted degenerate_table tt [0; 1; 2] = before ++ unit :: after ->
    stored "gdec.h5" w' =
      (written "gdec.h5" degenerate_ready ++ concat (map (batch degenerate_table tt) before))
      ++ batch degenerate_table tt unit
      ++ concat (map (batch degenerate_table tt) after)) /\
  match loop_result degenerate_table tt [0; 1; 2] with
  | Ok _ => attempted degenerate_table tt [0; 1; 2] = completed degenerate_table tt [0; 1; 2]
  | Raise _ =>
      exists last,
        attempted degenerate_table tt [0; 1; 2]
        = completed degenerate_table tt [0; 1; 2] ++ [last] /\
        ~ completes degenerate_table tt last
  end /\
  (forall (unit : Z) (row : SurveyRow),
     table_getitem degenerate_table unit = Ok row ->
     (completes degenerate_table tt unit ->
      batch degenerate_table tt unit
      = map (record_of unit (fit_spectrum row tt))
            (seq 0 (length (fit_spectrum row tt) / 3))) /\
     (forall k : nat, first_zero_sigma (fit_spectrum row tt) k ->
        ~ completes degenerate_table tt unit /\
        (k < length (fit_spectrum row tt) / 3)%nat /\
        batch degenerate_table tt unit
        = map (record_of unit (fit_spectrum row tt)) (seq 0 k))).
Proof.
  apply (batches_contiguous (C := stub) full_scan degenerate_ready degenerate_table
           fit_cfg tt [0; 1; 2]).
  - discriminate.
  - example_survey degenerate_table.
  - example_table.
  - reflexivity.
  - reflexivity.
  - reflexivity.
Defined.

(** The run of the index list 0, 7, 2 on the example. *)
Lemma bad_list_run :
  exists w',
    main (args (-1) (Some "bad.npy"%string) "fit.cfg") disk = (Raise IndexError, w') /\
    stored "gdec.h5" w' = [record_of 0 [5; 100; 2]%R 0].
Proof.
  destruct (fit_spectra_spec (C := stub) (args (-1) (Some "bad.npy"%string) "fit.cfg")
              ready table fit_cfg tt [0; 7; 2])
    as (w' & Hrun & Hst & _);
    [discriminate|example_survey table|example_table|reflexivity..|].
  destruct (batch_whole (C := stub) table tt 0 (mkSurveyRow 10 []) eq_refl
              (table_nonzero 0 _ eq_refl)) as [Hb0 Hc0].
  destruct (batch_not_found (C := stub) table tt 7 IndexError eq_refl) as [Hb7 Hc7].
  destruct (attempted_until (C := stub) table tt [0] [2] 7 IndexError)
    as (Hatt & _ & Hres); [by repeat constructor|done|].
  cbn [app] in Hatt, Hres. rewrite Hres in Hrun. rewrite Hatt in Hst.
  unfold full_scan, args in Hst. cbn [outname] in Hst.
  exists w'. split.
  - rewrite main_ready by reflexivity. exact Hrun.
  - rewrite Hst. cbn [map concat]. rewrite Hb0, Hb7. reflexivity.
Qed.

(** C5, refuted as stated: with the work list 0, 7, 2 on the table of
    three rows the run ends with [IndexError] at unit 7; unit 2, which is
    in range, is never written. *)
Lemma example_run_stops_at_bad_unit :
  let bad_list := args (-1) (Some "bad.npy"%string) "fit.cfg" in
  np_load "bad.npy" = Some [0; 7; 2] /\
  in_range table 2 /\
  fst (main bad_list disk) = Raise IndexError /\
  map hpxindex (stored "gdec.h5" (snd (main bad_list disk))) = [0].
Proof.
  cbv zeta. destruct bad_list_run as (w' & -> & Hst). cbn [fst snd]. rewrite Hst.
  split; [reflexivity|]. split; [unfold in_range; simpl; lia|].
  split; reflexivity.
Qed.

Lemma bad_unit_aborts_witness :
  let bad_list := args (-1) (Some "bad.npy"%string) "fit.cfg" in
  (forall key : Z,
     out_of_range table key <-> exists e, table_getitem table key = Raise e) /\
  do_fit table 7 (Some tt) = Raise IndexError /\
  exists w',
    fit_spectra bad_list ready = (Raise IndexError, w') /\
    stored "gdec.h5" w' =
      written "gdec.h5" ready ++ concat (map (batch table tt) [0]) /\
    buf w' = [].
Proof.
  apply (bad_unit_aborts (C := stub) (args (-1) (Some "bad.npy"%string) "fit.cfg")
           ready table fit_cfg tt [0] [2] 7).
  - discriminate.
  - example_survey table.
  - example_table.
  - reflexivity.
  - reflexivity.
  - reflexivity.
  - repeat constructor. apply (batch_whole (C := stub) table tt 0 (mkSurveyRow 10 []) eq_refl).
    apply (table_nonzero 0). reflexivity.
  - unfold out_of_range. simpl. lia.
Defined.

(** C6, refuted as stated: a sample count of 5 on the table of three
    rows, and a configuration file that is rejected, both end the run
    with the pool already started. *)
Lemma example_pool_started_before_errors :
  let oversized := args 5 None "fit.cfg" in
  let malformed := args (-1) None "broken.cfg" in
  fst (main oversized disk) = Raise ValueError /\
  log (snd (main oversized disk)) = [EvPoolStart "survey.h5"; EvClose] /\
  parse_config (config malformed) = None /\
  fst (main malformed disk) = Raise ConfigError /\
  log (snd (main malformed disk)) = [EvPoolStart "survey.h5"; EvClose].
Proof. repeat split; by vm_compute. Qed.

Lemma config_errors_after_pool_start_witness :
  fit_spectra (args (-1) None "broken.cfg") ready =
    (Raise ConfigError,
     mkWorld (fs ready) [] (log ready ++ [EvPoolStart "survey.h5"; EvClose])) /\
  get_row_index 5 None table = Raise ValueError /\
  fit_spectra (args 5 None "fit.cfg") ready =
    (Raise ValueError,
     mkWorld (fs ready) [] (log ready ++ [EvPoolStart "survey.h5"; EvClose])).
Proof.
  split.
  - apply (config_errors_after_pool_start (C := stub) (args (-1) None "broken.cfg") ready table).
    + example_survey table.
    + example_table.
    + reflexivity.
    + reflexivity.
  - apply (config_errors_after_pool_start (C := stub) (args 5 None "fit.cfg") ready table)
      with (c := fit_cfg) (p := tt).
    + example_survey table.
    + example_table.
    + reflexivity.
    + reflexivity.
    + reflexivity.
    + reflexivity.
    + simpl. lia.
Defined.

(** Every row of the big table is fitted with one component of width 2. *)
Lemma big_table_completes : Forall (completes big_table tt) sparse_work.
Proof.
  apply Forall_forall. intros i Hi.
  assert (Hr : in_range big_table i).
  { unfold in_range, big_table. rewrite length_replicate.
    unfold sparse_work in Hi. apply elem_of_app in Hi as [Hi|Hi].
    - apply list_elem_of_fmap in Hi as (j & -> & Hj%elem_of_seq). lia.
    - apply elem_of_cons in Hi as [->|Hi]; [lia|].
      apply elem_of_cons in Hi as [->|Hi]; [lia|]. by apply elem_of_nil in Hi. }
  destruct (table_getitem_in_range big_table i Hr) as [row Hrow].
  assert (Hrow' : row = mkSurveyRow 10 []).
  { unfold table_getitem in Hrow.
    destruct (Z.of_nat (length big_table) <=? i); [done|].
    destruct (slice_indices _ _ _) as [start stop].
    destruct (start <? stop); [|done].
    destruct (big_table !! Z.to_nat start) as [row'|] eqn:Hl; [|done].
    injection Hrow as <-. unfold big_table in Hl.
    by apply lookup_replicate_1 in Hl as [-> _]. }
  subst row. apply (batch_whole (C := stub) big_table tt i (mkSurveyRow 10 []) Hrow).
  apply (table_nonzero 0). reflexivity.
Qed.

Lemma no_flush_witness :
  length sparse_work = 1001%nat /\
  (exists w',
     for_results "gdec.h5" big_table tt sparse_work ready
       = (loop_result big_table tt sparse_work, w') /\
     fs w' = fs ready /\
     log w' = log ready /\
     buf w' = buf ready
              ++ concat (map (batch big_table tt) (attempted big_table tt sparse_work))) /\
  loop_result big_table tt sparse_work = Ok tt /\
  attempted big_table tt sparse_work = sparse_work.
Proof.
  split; [reflexivity|].
  destruct (no_flush_without_multiple_of_1000 (C := stub) "gdec.h5" big_table tt
              sparse_work ready) as [Hrun Hall].
  - refine (bool_decide_unpack _ _). vm_compute. exact I.
  - split; [exact Hrun|]. exact (Hall big_table_completes).
Defined.

(** The run of the index list 0, 0, 0 on the example. *)
Lemma first_list_run :
  log (snd (main (args (-1) (Some "first.npy"%string) "fit.cfg") disk))
  = [EvPoolStart "survey.h5"; EvFlush; EvFlush; EvFlush; EvClose].
Proof.
  destruct (fit_spectra_spec (C := stub) (args (-1) (Some "first.npy"%string) "fit.cfg")
              ready table fit_cfg tt [0; 0; 0])
    as (w' & Hrun & _ & _ & Hlog);
    [discriminate|example_survey table|example_table|reflexivity..|].
  assert (Hall : Forall (completes table tt) [0; 0; 0]).
  { repeat constructor; apply (batch_whole (C := stub) table tt 0 (mkSurveyRow 10 []) eq_refl);
      apply (table_nonzero 0); reflexivity. }
  destruct (completes_all (C := stub) table tt _ Hall) as (_ & Hcompl & _).
  rewrite Hcompl in Hlog.
  assert (Hmain : main (args (-1) (Some "first.npy"%string) "fit.cfg") disk
                  = (match loop_result table tt [0; 0; 0] with
                     | Ok _ => Ok 0
                     | Raise e => Raise e
                     end, w')).
  { rewrite main_ready by reflexivity. exact Hrun. }
  rewrite Hmain. cbn [snd]. rewrite Hlog. reflexivity.
Qed.

(** The other side of C7: the work list 0, 0, 0 makes the loop flush
    after every unit. *)
Lemma flush_at_every_unit_example :
  let first := args (-1) (Some "first.npy"%string) "fit.cfg" in
  log (snd (main first disk))
  = [EvPoolStart "survey.h5"; EvFlush; EvFlush; EvFlush; EvClose].
Proof. exact first_list_run. Qed.

(** C8, refuted as stated: with no index list and the sample count 0,
    which is not positive, the enumerator gives no row index at all,
    not the three of the table. *)
Lemma zero_samples_is_not_full_scan :
  ~ (0 < 0) /\
  get_row_index 0 None table = Ok [] /\
  range (length table) = [0; 1; 2] /\
  get_row_index 0 None table <> Ok (range (length table)).
Proof.
  split; [lia|]. split; [reflexivity|]. split; [reflexivity|]. discriminate.
Qed.

Lemma create_or_abort_witness :
  create_tables full_scan ready = (Raise (IOError "File already exists"), ready) /\
  exists w',
    create_tables full_scan disk = (Ok 0, w') /\
    fs w' = <[ "gdec.h5"%string := new_gaussdec_file ]> (fs disk) /\
    buf w' = buf disk /\ log w' = log disk /\
    stored "gdec.h5" w' = [] /\
    gaussdec new_gaussdec_file = Some (mkTable [] ["hpxindex"%string] true).
Proof.
  split.
  - apply (proj1 (create_or_abort full_scan ready) new_gaussdec_file); reflexivity.
  - apply (proj1 (proj2 (create_or_abort full_scan disk))). right. reflexivity.
Defined.

End Checks.

(** ** The further properties, on the examples *)

Section MoreChecks.

Import Example ScriptExample.

#[local] Existing Instance Example.stub.

Lemma random_sample_distinct_witness :
  exists work,
    get_row_index 2 None table = Ok work /\
    length work = Z.to_nat 2 /\
    NoDup work /\
    Forall (fun row_index => 0 <= row_index < Z.of_nat (length table)) work /\
    Forall (fun row_index => exists row, table_getitem table row_index = Ok row) work.
Proof.
  apply (random_sample_distinct (C := Example.stub) 2 table).
  - simpl. lia.
  - reflexivity.
Defined.


Lemma full_scan_trace_witness :
  exists w',
    fit_spectra full_scan ready = (Ok 0, w') /\
    log w' = log ready ++ [EvPoolStart "survey.h5"]
                       ++ replicate ((length table + 999) / 1000) EvFlush
                       ++ [EvClose].
Proof.
  apply (full_scan_trace (C := Example.stub) full_scan ready table fit_cfg tt).
  - discriminate.
  - example_survey table.
  - example_table.
  - reflexivity.
  - reflexivity.
  - reflexivity.
  - simpl. lia.
  - apply table_nonzero.
Defined.

Lemma fit_spectra_append_only_witness :
  let w' := snd (fit_spectra full_scan ready) in
  (exists new, stored "gdec.h5" w' = written "gdec.h5" ready ++ new) /\
  buf w' = [] /\
  exists trace, log w' = log ready ++ EvPoolStart "survey.h5" :: trace ++ [EvClose].
Proof.
  apply (fit_spectra_append_only (C := Example.stub) full_scan ready).
  example_table.
Defined.

Lemma fit_spectra_touches_only_output_witness :
  fs (snd (fit_spectra full_scan ready)) !! "survey.h5" = fs ready !! "survey.h5".
Proof.
  apply (fit_spectra_touches_only_output (C := Example.stub) full_scan ready "survey.h5").
  intros Heq. discriminate Heq.
Defined.

Lemma fit_spectra_keeps_index_witness :
  index_of "gdec.h5" (snd (fit_spectra full_scan ready)) = index_of "gdec.h5" ready.
Proof.
  apply (fit_spectra_keeps_index (C := Example.stub) full_scan ready).
  example_table.
Defined.


Lemma main_overwrites_source_witness :
  exists w',
    main onto_source disk = (Raise ValueError, w') /\
    fs w' !! "survey.h5" = Some new_gaussdec_file /\
    log w' = log disk ++ [EvPoolStart "survey.h5"; EvClose].
Proof.
  apply (main_overwrites_source (C := Example.stub) onto_source disk).
  - reflexivity.
  - left. reflexivity.
  - reflexivity.
Defined.

Lemma full_scan_row_count_witness :
  fst (fit_spectra full_scan ready) = Ok 0 /\
  length (stored "gdec.h5" (snd (fit_spectra full_scan ready)))
  = (length (written "gdec.h5" ready)
     + sum_list (map (fun row => length (fit_spectrum row tt) / 3) table))%nat.
Proof.
  apply (full_scan_row_count (C := Example.stub) full_scan ready table fit_cfg tt).
  - discriminate.
  - example_survey table.
  - example_table.
  - reflexivity.
  - reflexivity.
  - reflexivity.
  - simpl. lia.
  - apply table_nonzero.
Defined.

Lemma ncomp_map_of_full_scan_witness :
  fst (fit_spectra full_scan ready) = Ok 0 /\
  exists ncomps,
    inspect_gaussdec.make_ncomp_map (stored "gdec.h5" (snd (fit_spectra full_scan ready)))
      = Ok ncomps /\
    forall (i : nat) (row : SurveyRow), table !! i = Some row ->
      ncomps !! i = Some (length (fit_spectrum row tt) / 3)%nat.
Proof.
  apply (ncomp_map_of_full_scan (C := Example.stub) full_scan ready table fit_cfg tt).
  - discriminate.
  - example_survey table.
  - example_table.
  - reflexivity.
  - reflexivity.
  - reflexivity.
  - reflexivity.
  - simpl. lia.
  - simpl. lia.
  - apply table_nonzero.
Defined.

Lemma make_ncomp_map_counts_witness :
  exists ncomps,
    inspect_gaussdec.make_ncomp_map components = Ok ncomps /\
    Z.of_nat (length ncomps) = 12582912 /\
    forall q : Z, 0 <= q < 12582912 ->
      ncomps !! Z.to_nat q =
      Some (length (filter (fun row => hpxindex row = q \/ hpxindex row = q - 12582912)
                           components)).
Proof.
  apply (make_ncomp_map_counts components).
  repeat constructor; simpl; lia.
Defined.

Lemma reconstruct_coldens_sums_witness :
  exists hi_model,
    inspect_gaussdec.reconstruct_coldens components = Ok hi_model /\
    Z.of_nat (length hi_model) = 12582912 /\
    forall q : Z, 0 <= q < 12582912 ->
      let rows_of_q :=
        filter (fun row => hpxindex row = q \/ hpxindex row = q - 12582912) components in
      hi_model !! Z.to_nat q =
      Some (foldr Rplus 0 (map amplitude rows_of_q) * (1.82e18 * 1.288))%R.
Proof.
  apply (reconstruct_coldens_sums components).
  repeat constructor; simpl; lia.
Defined.

End MoreChecks.

Section ScriptChecks.

Import call_specfit ScriptExample.

#[local] Existing Instance ScriptExample.stub.

Lemma fit_file_results_witness :
  exists results,
    fit_file ("data/x.fits"%string, ∅) ∅
      = (Ok tt, <[outname_of "data/x.fits" := results]> ∅) /\
    (forall k, is_Some (results !! k) <->
               off_plane k = true /\ exists row, row ∈ rows /\ HPXINDEX row = k) /\
    (forall before row after,
       rows = before ++ row :: after ->
       off_plane (HPXINDEX row) = true ->
       Forall (fun later => HPXINDEX later <> HPXINDEX row) after ->
       results !! HPXINDEX row = Some (fit_spectrum (DATA row) ∅)).
Proof.
  apply (fit_file_results (S := ScriptExample.stub) "data/x.fits" ∅ ∅ rows);
    reflexivity.
Defined.

Lemma fit_file_clobber_lookup_witness :
  (∅ : gmap string (gmap Z fit)) !! outname_of "data/x.fits" = None /\
  fit_file ("data/x.fits"%string, ∅) ∅ =
  (Ok tt, <[outname_of "data/x.fits" := dict_of (fit_spectra rows ∅)]> ∅).
Proof.
  split; [reflexivity|].
  refine (proj1 (fit_file_clobber_lookup (S := ScriptExample.stub)
                   "data/x.fits" ∅ ∅ rows _ _) _); reflexivity.
Defined.

Lemma script_never_overwrites_witness :
  snd (fit_file task {[ "x.fits_fits.gzjs"%string := ∅ ]}) !! "x.fits_fits.gzjs"
    = Some ∅ /\
  fst (fit_file task {[ "x.fits_fits.gzjs"%string := ∅ ]}) <> Raise KeyError.
Proof.
  apply (script_never_overwrites (S := ScriptExample.stub) task
           {[ "x.fits_fits.gzjs"%string := ∅ ]} "x.fits_fits.gzjs" ∅).
  - apply list_elem_of_here.
  - reflexivity.
Defined.

Lemma script_rerun_is_skipped_witness :
  let files' := <[outname_of "data/x.fits" := dict_of (fit_spectra rows (snd task))]> ∅ in
  fit_file task files' = (Ok tt, files').
Proof.
  apply (script_rerun_is_skipped (S := ScriptExample.stub) task ∅).
  - apply list_elem_of_here.
  - reflexivity.
Defined.

End ScriptChecks.
